(* ===================================================================== *)
(* diff_pdf_visually/diff.py: a shallow embedding and its properties      *)
(* ===================================================================== *)
(* The module has three functions that matter: pdftopng (rasterise one
   PDF into a directory and list the page ids), imgdiff (run the image
   comparison on one page pair and read the score from its log) and
   pdfdiff (the pipeline: rasterise both, compare page by page, take the
   minimum score and compare it with the threshold).

   How the Python is read here.
   - str is [string]; a character stands for a code point below 256.
     Comparison of str is by code point, which is [String.compare].
   - float is IEEE binary64, [spec_float] with its own comparison
     ([SFltb], [SFleb]): a comparison with a NaN operand is false.
   - int is [Z].
   - The world is the directory the run works in (a finite map from
     entry name to text lines) and the list of commands that were
     executed.  A function of the module is a state transformer that
     returns a value or raises.
   - The operating system (subprocess.run), os.path.isfile on the input
     documents and the built-in float() are parameters of the model.
   - print, the echo of verbose_run and time.sleep only touch the
     standard streams and the clock, which the world does not contain;
     they are left out, and with them the verbosity and time_to_inspect
     arguments that only they read.
   - The two pdftopng tasks of the thread pool are run one after the
     other, document a first (the schedule of a pool with one worker);
     both finish before either result is read, as under the with block. *)

From Stdlib Require Import ZArith String Ascii List Bool Lia.
From Stdlib Require Import Sorted Permutation DecimalString SpecFloat.
From stdpp Require Import base option list strings sorting gmap.

Import ListNotations.
Local Open Scope string_scope.
Local Open Scope list_scope.

(* --------------------------------------------------------------------- *)
(* str                                                                    *)
(* --------------------------------------------------------------------- *)

Module PyStr.

(* s.startswith(pre) *)
Fixpoint startswith (pre s : string) : bool :=
  match pre, s with
  | EmptyString, _ => true
  | String c pre', String d s' => if Ascii.eqb c d then startswith pre' s' else false
  | String _ _, EmptyString => false
  end.

(* needle in hay *)
Fixpoint contains (needle hay : string) : bool :=
  startswith needle hay ||
  match hay with
  | EmptyString => false
  | String _ hay' => contains needle hay'
  end.

(* s[n:] *)
Fixpoint drop_str (n : nat) (s : string) : string :=
  match n, s with
  | O, _ => s
  | S n', String _ s' => drop_str n' s'
  | S _, EmptyString => EmptyString
  end.

(* s[start:-back] for back > 0: both ends are clipped to the string, and
   the slice is empty when the ends cross. *)
Definition slice (start back : nat) (s : string) : string :=
  String.substring start (String.length s - back - start) s.

(* c.isspace() for a code point below 256 *)
Definition isspace (c : ascii) : bool :=
  let n := nat_of_ascii c in
  (((9 <=? n) && (n <=? 13)) || ((28 <=? n) && (n <=? 32))
   || (n =? 133) || (n =? 160))%nat.

Fixpoint lstrip (s : string) : string :=
  match s with
  | EmptyString => EmptyString
  | String c s' => if isspace c then lstrip s' else s
  end.

Fixpoint rstrip (s : string) : string :=
  match s with
  | EmptyString => EmptyString
  | String c s' =>
      match rstrip s' with
      | EmptyString => if isspace c then EmptyString else String c EmptyString
      | r => String c r
      end
  end.

(* s.strip() *)
Definition strip (s : string) : string := rstrip (lstrip s).

(* str(n) for an int *)
Definition str_of_Z (n : Z) : string := NilZero.string_of_int (Z.to_int n).

(* sorted(names): the list in ascending order of str comparison.  Two
   str that compare equal are the same str, so every sorting algorithm
   returns the same list; stdpp's merge sort is used. *)
Definition sorted (l : list string) : list string := merge_sort String.le l.

End PyStr.

(* --------------------------------------------------------------------- *)
(* fnmatch: the pattern language of Path.glob for one path component      *)
(* --------------------------------------------------------------------- *)
(* '*' matches any run of characters, '?' one character, '[seq]' and
   '[!seq]' one character in or out of the set; a '[' that is never
   closed is an ordinary character, and so is everything else (there is
   no escape character).  Matching is case sensitive, as on POSIX.  A
   pattern holding '/' would span directories and is outside the model. *)

Module Fnmatch.

Inductive token : Type :=
| Lit (c : ascii)
| AnyChar
| Star
| Class (negated : bool) (items : list (ascii * ascii)).

(* The offset of the ']' that closes a class, counted from the
   character after the '['; a leading '!' and a ']' right after it do
   not close. *)
Fixpoint find_close (s : string) : option nat :=
  match s with
  | EmptyString => None
  | String c s' => if Ascii.eqb c "]" then Some O else S <$> find_close s'
  end.

Definition class_end (s : string) : option nat :=
  match s with
  | String "!" (String "]" s') => (fun j => S (S j)) <$> find_close s'
  | String "!" s' => S <$> find_close s'
  | String "]" s' => S <$> find_close s'
  | _ => find_close s
  end.

(* The members of a set: single characters and ranges lo-hi. *)
Fixpoint class_items (s : string) : list (ascii * ascii) :=
  match s with
  | EmptyString => []
  | String lo (String "-" (String hi rest)) => (lo, hi) :: class_items rest
  | String c rest => (c, c) :: class_items rest
  end.

Definition parse_class (stuff : string) : token :=
  match stuff with
  | String "!" body => Class true (class_items body)
  | _ => Class false (class_items stuff)
  end.

(* One left-to-right pass over the pattern; [skip] counts the
   characters of a class body still to be passed over. *)
Fixpoint translate_from (skip : nat) (pat : string) : list token :=
  match pat with
  | EmptyString => []
  | String c rest =>
      match skip with
      | S k => translate_from k rest
      | O =>
          if Ascii.eqb c "*" then Star :: translate_from 0 rest
          else if Ascii.eqb c "?" then AnyChar :: translate_from 0 rest
          else if Ascii.eqb c "[" then
            match class_end rest with
            | Some j =>
                parse_class (String.substring 0 j rest) :: translate_from (S j) rest
            | None => Lit "[" :: translate_from 0 rest
            end
          else Lit c :: translate_from 0 rest
      end
  end.

Definition translate (pat : string) : list token := translate_from 0 pat.

Definition in_range (c : ascii) (r : ascii * ascii) : bool :=
  ((nat_of_ascii (fst r) <=? nat_of_ascii c)
   && (nat_of_ascii c <=? nat_of_ascii (snd r)))%nat.

Definition in_class (negated : bool) (items : list (ascii * ascii)) (c : ascii) : bool :=
  xorb negated (existsb (in_range c) items).

Fixpoint matches (p : list token) (s : string) : bool :=
  match p with
  | [] => match s with EmptyString => true | _ => false end
  | Lit c :: p' =>
      match s with
      | String d s' => Ascii.eqb c d && matches p' s'
      | EmptyString => false
      end
  | AnyChar :: p' =>
      match s with
      | String _ s' => matches p' s'
      | EmptyString => false
      end
  | Class neg items :: p' =>
      match s with
      | String d s' => in_class neg items d && matches p' s'
      | EmptyString => false
      end
  | Star :: p' =>
      (fix star (s : string) : bool :=
         matches p' s ||
         match s with
         | EmptyString => false
         | String _ s' => star s'
         end) s
  end.

(* fnmatch.fnmatchcase(name, pat) *)
Definition fnmatch (pat name : string) : bool := matches (translate pat) name.

(* glob.has_magic(s): s holds one of the characters '*', '?', '[' *)
Fixpoint has_magic (s : string) : bool :=
  match s with
  | EmptyString => false
  | String c s' =>
      Ascii.eqb c "*" || Ascii.eqb c "?" || Ascii.eqb c "[" || has_magic s'
  end.

(* The pattern of a str taken literally *)
Fixpoint literal (s : string) : list token :=
  match s with
  | EmptyString => []
  | String c s' => Lit c :: literal s'
  end.

End Fnmatch.

(* --------------------------------------------------------------------- *)
(* float                                                                  *)
(* --------------------------------------------------------------------- *)

Module PyFloat.

Definition pyfloat : Type := spec_float.

(* INFINITY = float('inf') *)
Definition INFINITY : pyfloat := S754_infinity false.

Definition is_nan (x : pyfloat) : bool :=
  match x with S754_nan => true | _ => false end.

(* min(xs, default=d): the first element is the candidate, and a later
   element replaces it when it is strictly smaller. *)
Fixpoint min_from (cur : pyfloat) (xs : list pyfloat) : pyfloat :=
  match xs with
  | [] => cur
  | x :: xs' => min_from (if SFltb x cur then x else cur) xs'
  end.

Definition py_min (xs : list pyfloat) (default : pyfloat) : pyfloat :=
  match xs with
  | [] => default
  | x :: xs' => min_from x xs'
  end.

End PyFloat.

Import PyStr Fnmatch PyFloat.

(* --------------------------------------------------------------------- *)
(* Exceptions, paths, the world                                           *)
(* --------------------------------------------------------------------- *)

Inductive exn : Type :=
| ValueError (msg : string)
| AssertionError (msg : string)
| CalledProcessError (returncode : Z) (cmd : list string)
| FileNotFoundError (filename : string).

Inductive outcome (A : Type) : Type :=
| Return (a : A)
| Raise (e : exn).
Arguments Return {A} a.
Arguments Raise {A} e.

(* A pathlib.Path inside the working directory: the directory's own
   path and the entry name. *)
Record Path : Type := mkPath { parent : string; name : string }.

(* destdir / entry *)
Definition joinpath (destdir entry : string) : Path := mkPath destdir entry.

(* str(path), for an entry name that is neither empty nor '.' *)
Definition str_path (p : Path) : string := parent p +:+ "/" +:+ name p.

(* repr(destdir), for a path without quotes or escapes *)
Definition repr_dir (destdir : string) : string := "PosixPath('" +:+ destdir +:+ "')".

(* repr(s), for a str without quotes or escapes *)
Definition repr_str (s : string) : string := "'" +:+ s +:+ "'".

(* repr(l) for a list of str *)
Definition repr_list (l : list string) : string :=
  "[" +:+ String.concat ", " (List.map repr_str l) +:+ "]".

Record world : Type := mkWorld {
  files : gmap string (list string);   (* entry name -> text lines *)
  trace : list (list string)           (* argv of every command run, oldest first *)
}.

Definition M (A : Type) : Type := world -> outcome A * world.

Definition ret {A} (a : A) : M A := fun w => (Return a, w).

Definition raise {A} (e : exn) : M A := fun w => (Raise e, w).

Definition bind {A B} (c : M A) (k : A -> M B) : M B :=
  fun w =>
    match c w with
    | (Return a, w') => k a w'
    | (Raise e, w') => (Raise e, w')
    end.

Notation "'let!' x ':=' c 'in' k" := (bind c (fun x => k))
  (at level 10, x pattern, c at level 100, k at level 200).

(* assert cond, msg *)
Definition py_assert (cond : bool) (msg : string) : M unit :=
  if cond then ret tt else raise (AssertionError msg).

(* path.is_file(), path.exists() *)
Definition is_file (p : Path) : M bool :=
  fun w => (Return (bool_decide (is_Some (files w !! name p))), w).

(* destdir.glob(pattern), as the entry names, for a pattern that is one
   path component (no '/', no '**'); the order is the directory's own. *)
Definition glob (pattern : string) : M (list string) :=
  fun w => (Return (List.filter (fnmatch pattern) (elements (dom (files w)))), w).

(* The thread pool: submit runs the task to its end and keeps how it
   ended; result() hands the value back or raises again. *)
Definition submit {A} (task : M A) : M (outcome A) :=
  fun w => let '(r, w') := task w in (Return r, w').

Definition future_result {A} (r : outcome A) : M A :=
  match r with
  | Return a => ret a
  | Raise e => raise e
  end.

Definition is_nil {A} (l : list A) : bool :=
  match l with [] => true | _ => false end.

(* --------------------------------------------------------------------- *)
(* A small operating system to run the model on                           *)
(* --------------------------------------------------------------------- *)

Module Demo.

Definition float_of_int (n : Z) : pyfloat := binary_normalize 53 1024 n 0 false.

Definition three_point_two : pyfloat :=
  SFdiv 53 1024 (float_of_int 32) (float_of_int 10).

(* float() on the few tokens the examples use *)
Definition float_of_str (s : string) : option pyfloat :=
  if String.eqb s "3.2" then Some three_point_two
  else if String.eqb s "5" then Some (float_of_int 5)
  else if String.eqb s "0.0" then Some (S754_zero false)
  else if String.eqb s "inf" then Some (S754_infinity false)
  else if String.eqb s "nan" then Some S754_nan
  else None.

Definition isfile (path : string) : bool :=
  String.eqb path "A.pdf" || String.eqb path "B.pdf".

Fixpoint write_pages (stem : string) (pages : list string)
    (fs : gmap string (list string)) : gmap string (list string) :=
  match pages with
  | [] => fs
  | pg :: pages' => <[stem +:+ pg +:+ ".png" := []]> (write_pages stem pages' fs)
  end.

(* A rasteriser that writes the given page files for A.pdf and for any
   other document, and a comparison that always ends with the given
   status and report. *)
Definition exec (stem_a : string) (pages_a : list string)
    (stem_b : string) (pages_b : list string)
    (status : Z) (report : list string)
    (argv : list string) (fs : gmap string (list string))
    : Z * list string * gmap string (list string) :=
  match argv with
  | cmd :: _ :: _ :: _ :: src :: _ =>
      if String.eqb cmd "pdftocairo" then
        if String.eqb src "A.pdf" then (0%Z, [], write_pages stem_a pages_a fs)
        else (0%Z, [], write_pages stem_b pages_b fs)
      else (status, report, fs)
  | _ => (status, report, fs)
  end.

(* One page per document, rendered as a-1.png and b-1.png, and a
   comparison that ends with the given status and report. *)
Definition one_page (status : Z) (report : list string) :=
  exec "a-" ["1"] "b-" ["1"] status report.

(* The directory with both renderings of page 1 in it *)
Definition page_one : world :=
  mkWorld (write_pages "a-" ["1"] (write_pages "b-" ["1"] ∅)) [].

Definition pagea : Path := joinpath "/tmp/d" "a-1.png".
Definition pageb : Path := joinpath "/tmp/d" "b-1.png".
Definition pagediff : Path := joinpath "/tmp/d" "diff-1.png".
Definition pagelog : Path := joinpath "/tmp/d" "log-1.txt".

(* A machine on which every command ends with the given status and
   writes nothing. *)
Definition broken (status : Z)
    (argv : list string) (fs : gmap string (list string))
    : Z * list string * gmap string (list string) :=
  (status, ["command failed"], fs).

(* Document A.pdf is rasterised into the given pages; any other command
   ends with the given status and writes nothing. *)
Definition only_a (pages_a : list string) (status : Z)
    (argv : list string) (fs : gmap string (list string))
    : Z * list string * gmap string (list string) :=
  match argv with
  | cmd :: _ :: _ :: _ :: src :: _ =>
      if String.eqb cmd "pdftocairo" && String.eqb src "A.pdf"
      then (0%Z, [], write_pages "a-" pages_a fs)
      else (status, ["command failed"], fs)
  | _ => (status, ["command failed"], fs)
  end.

End Demo.

(* --------------------------------------------------------------------- *)
(* diff.py                                                                *)
(* --------------------------------------------------------------------- *)

Section Diff.

(* subprocess.run(argv): the exit status, the text the command wrote to
   stdout and stderr, as lines, and the directory it leaves behind. *)
Variable os_exec :
  list string -> gmap string (list string) ->
  Z * list string * gmap string (list string).

(* os.path.isfile on an input document *)
Variable os_path_isfile : string -> bool.

(* float(s): None when it raises ValueError *)
Variable float_of_str : string -> option pyfloat.

(* verbose_run(print_cmd, args, stdout=PIPE, stderr=PIPE, check=True) *)
Definition verbose_run_checked (args : list string) : M unit :=
  fun w =>
    let '(returncode, _, fs) := os_exec args (files w) in
    let w' := mkWorld fs (trace w ++ [args]) in
    if (returncode =? 0)%Z then (Return tt, w')
    else (Raise (CalledProcessError returncode args), w').

(* with log.open('wb') as f:
       verbose_run(print_cmd, args, stdout=f, stderr=subprocess.STDOUT)
   The log is created empty, the command runs, and what it wrote is the
   log's content afterwards. *)
Definition verbose_run_logged (log : Path) (args : list string) : M Z :=
  fun w =>
    let '(returncode, out, fs) := os_exec args (<[name log := []]> (files w)) in
    (Return returncode, mkWorld (<[name log := out]> fs) (trace w ++ [args])).

(* with log.open('r') as f: lines = f.readlines() *)
Definition readlines (log : Path) : M (list string) :=
  fun w =>
    match files w !! name log with
    | Some lines => (Return lines, w)
    | None => (Raise (FileNotFoundError (str_path log)), w)
    end.

Definition pdftopng (sourcepath destdir basename : string) (dpi : Z) : M (list string) :=
  let! stale := glob (basename +:+ "*") in
  if negb (is_nil stale) then
    raise (ValueError ("destdir not clean: " +:+ repr_dir destdir))
  else
    let! _ := verbose_run_checked
                ["pdftocairo"; "-png"; "-r"; str_of_Z dpi; sourcepath;
                 str_path (joinpath destdir basename)] in
    let! found := glob (basename +:+ "*" +:+ ".png") in
    let numbers := sorted found in
    ret (List.map (slice (String.length basename + 1) 4) numbers).

Definition PREF : string := "    all: ".

(* imgdiff from the point where the log has been read (lines 63 to 71) *)
Definition imgdiff_log (lines : list string) : M pyfloat :=
  if existsb (contains "image widths or heights differ") lines then
    raise (ValueError "image widths or heights differ")
  else
    let all_line := List.filter (startswith PREF) lines in
    let! _ := py_assert (length all_line =? 1)%nat "" in
    let all_str := strip (drop_str (String.length PREF) (List.hd "" all_line)) in
    if String.eqb all_str "0" then ret INFINITY
    else
      match float_of_str all_str with
      | Some all_num => ret all_num
      | None =>
          raise (ValueError ("could not convert string to float: " +:+ repr_str all_str))
      end.

Definition imgdiff (a b diff log : Path) : M pyfloat :=
  let! a_is_file := is_file a in
  let! _ := py_assert a_is_file "" in
  let! b_is_file := is_file b in
  let! _ := py_assert b_is_file "" in
  let! diff_exists := is_file diff in
  let! _ := py_assert (negb diff_exists) "" in
  let! log_exists := is_file log in
  let! _ := py_assert (negb log_exists) "" in
  let! returncode := verbose_run_logged log
                ["compare"; "-verbose"; "-metric"; "PSNR";
                 str_path a; str_path b; str_path diff] in
  if (returncode >? 1)%Z then
    raise (ValueError ("compare crashed, status=" +:+ str_of_Z returncode))
  else
    let! lines := readlines log in
    imgdiff_log lines.

(* The for loop of pdfdiff (lines 115 to 127) *)
Fixpoint compare_pages (p : string) (pages : list string)
    (significances : list pyfloat) : M (list pyfloat) :=
  match pages with
  | [] => ret significances
  | pageno :: rest =>
      let pageapath := joinpath p ("a-" +:+ pageno +:+ ".png") in
      let pagebpath := joinpath p ("b-" +:+ pageno +:+ ".png") in
      let diffpath := joinpath p ("diff-" +:+ pageno +:+ ".png") in
      let logpath := joinpath p ("log-" +:+ pageno +:+ ".txt") in
      let! s := imgdiff pageapath pagebpath diffpath logpath in
      compare_pages p rest (significances ++ [s])
  end.

(* The body of the with tempfile.TemporaryDirectory block; p is the
   path of the directory. *)
Definition pdfdiff_in (p a b : string) (threshold : pyfloat) (dpi : Z) : M bool :=
  let! a_i_ := submit (pdftopng a p "a" dpi) in
  let! b_i_ := submit (pdftopng b p "b" dpi) in
  let! a_i := future_result a_i_ in
  let! b_i := future_result b_i_ in
  if negb (bool_decide (a_i = b_i)) then
    let! _ := py_assert (negb (length a_i =? length b_i)%nat)
                ("mishap with weird page numbers: " +:+ repr_list a_i
                 +:+ " vs " +:+ repr_list b_i) in
    ret false
  else
    let! _ := py_assert (0 <? length a_i)%nat "" in
    let! significances := compare_pages p a_i [] in
    let min_significance := py_min significances INFINITY in
    let significant := SFleb min_significance threshold in
    ret (negb significant).

(* pdfdiff(a, b, threshold, dpi): the verdict or the exception, and the
   commands that were run.  The temporary directory d starts empty and
   is removed at the end. *)
Definition pdfdiff (d a b : string) (threshold : pyfloat) (dpi : Z)
    : outcome bool * list (list string) :=
  if negb (os_path_isfile a) then
    (Raise (AssertionError ("file " +:+ a +:+ " must exist")), [])
  else if negb (os_path_isfile b) then
    (Raise (AssertionError ("file " +:+ b +:+ " must exist")), [])
  else
    let '(r, w) := pdfdiff_in d a b threshold dpi (mkWorld ∅ []) in
    (r, trace w).

(* --------------------------------------------------------------------- *)
(* Names for the stages of a run, used to state the properties            *)
(* --------------------------------------------------------------------- *)

(* The command line of the rasteriser and of the comparison *)
Definition pdftocairo_argv (sourcepath destdir basename : string) (dpi : Z) : list string :=
  ["pdftocairo"; "-png"; "-r"; str_of_Z dpi; sourcepath;
   str_path (joinpath destdir basename)].

Definition compare_argv (a b diff : Path) : list string :=
  ["compare"; "-verbose"; "-metric"; "PSNR"; str_path a; str_path b; str_path diff].

(* What imgdiff asserts on entry: both images are there, the diff image
   and the log are not. *)
Definition imgdiff_ready (a b diff log : Path) (w : world) : Prop :=
  is_Some (files w !! name a) /\ is_Some (files w !! name b) /\
  files w !! name diff = None /\ files w !! name log = None.

(* pdfdiff's run, stage by stage, from the empty temporary directory d:
   document a rasterised, then document b, then the pages compared. *)
Definition rasterized_a (d a : string) (dpi : Z) : outcome (list string) * world :=
  pdftopng a d "a" dpi (mkWorld ∅ []).

Definition rasterized_b (d a b : string) (dpi : Z) : outcome (list string) * world :=
  pdftopng b d "b" dpi (snd (rasterized_a d a dpi)).

Definition compared (d a b : string) (dpi : Z) (pages : list string)
    : outcome (list pyfloat) * world :=
  compare_pages d pages [] (snd (rasterized_b d a b dpi)).

(* An error raised by line 58 of imgdiff, going by its message *)
Definition is_crash_error (e : exn) : bool :=
  match e with
  | ValueError msg => startswith "compare crashed, status=" msg
  | _ => false
  end.

(* The names line 36 of pdftopng works on: the entries that match
   basename + '*' + '.png', sorted. *)
Definition generated (basename : string) (w : world) : list string :=
  sorted (List.filter (fnmatch (basename +:+ "*" +:+ ".png")) (elements (dom (files w)))).


(* The command line of the loop's comparison for one page *)
Definition page_argv (p pageno : string) : list string :=
  compare_argv (joinpath p ("a-" +:+ pageno +:+ ".png"))
               (joinpath p ("b-" +:+ pageno +:+ ".png"))
               (joinpath p ("diff-" +:+ pageno +:+ ".png")).

(* s.isspace() or s == '': every character is white space *)
Fixpoint all_space (s : string) : bool :=
  match s with
  | EmptyString => true
  | String c s' => isspace c && all_space s'
  end.

(* ===================================================================== *)
(* Properties                                                             *)
(* ===================================================================== *)

(* --------------------------------------------------------------------- *)
(* str                                                                    *)
(* --------------------------------------------------------------------- *)

Lemma app_cons_str (c : ascii) (a b : string) :
  String c a +:+ b = String c (a +:+ b).
Proof. reflexivity. Qed.

Lemma app_nil_l_str (s : string) : "" +:+ s = s.
Proof. reflexivity. Qed.

Lemma app_nil_r_str (s : string) : s +:+ "" = s.
Proof.
  induction s as [|c s IH]; [reflexivity|].
  now rewrite app_cons_str, IH.
Qed.

Lemma app_assoc_str (a b c : string) : (a +:+ b) +:+ c = a +:+ (b +:+ c).
Proof.
  induction a as [|x a IH]; [reflexivity|].
  now rewrite !app_cons_str, IH.
Qed.

Lemma length_app_str (a b : string) :
  String.length (a +:+ b) = String.length a + String.length b.
Proof.
  induction a as [|x a IH]; [reflexivity|].
  rewrite app_cons_str. cbn [String.length]. now rewrite IH.
Qed.

Lemma startswith_app (pre rest : string) : startswith pre (pre +:+ rest) = true.
Proof.
  induction pre as [|c pre IH]; [reflexivity|].
  rewrite app_cons_str. cbn [startswith]. now rewrite Ascii.eqb_refl.
Qed.

Lemma startswith_inv (pre s : string) :
  startswith pre s = true -> exists rest, s = pre +:+ rest.
Proof.
  revert s. induction pre as [|c pre IH]; intros s H.
  - now exists s.
  - destruct s as [|d s]; [discriminate|]. cbn [startswith] in H.
    destruct (Ascii.eqb c d) eqn:E; [|discriminate].
    apply Ascii.eqb_eq in E. subst d.
    destruct (IH _ H) as [rest ->]. now exists rest.
Qed.

Lemma startswith_iff (pre s : string) :
  startswith pre s = true <-> exists rest, s = pre +:+ rest.
Proof.
  split; [apply startswith_inv|]. intros [rest ->]. apply startswith_app.
Qed.

Lemma substring_skip (pre t : string) (m : nat) :
  String.substring (String.length pre) m (pre +:+ t) = String.substring 0 m t.
Proof.
  induction pre as [|c pre IH]; [reflexivity|].
  rewrite app_cons_str. cbn [String.length String.substring]. apply IH.
Qed.

Lemma substring_take (s t : string) :
  String.substring 0 (String.length s) (s +:+ t) = s.
Proof.
  induction s as [|c s IH].
  - now destruct t.
  - rewrite app_cons_str. cbn [String.length String.substring]. now rewrite IH.
Qed.

Lemma substring_none (s : string) (n : nat) : String.substring n 0 s = "".
Proof. revert n. induction s as [|c s IH]; intros [|n]; cbn; auto. Qed.

(* What the slice keeps of a name made of a prefix, one more character,
   an id and a four-character extension. *)
Lemma slice_name (pre id ext : string) (sep : ascii) :
  String.length ext = 4 ->
  slice (String.length pre + 1) 4 (pre +:+ String sep (id +:+ ext)) = id.
Proof.
  intros Hext. unfold slice.
  rewrite length_app_str. cbn [String.length]. rewrite length_app_str, Hext.
  replace (String.length pre + S (String.length id + 4) - 4 - (String.length pre + 1))
    with (String.length id) by lia.
  replace (String.length pre + 1) with (String.length (pre +:+ String sep "")).
  2:{ rewrite length_app_str. reflexivity. }
  replace (pre +:+ String sep (id +:+ ext)) with ((pre +:+ String sep "") +:+ (id +:+ ext)).
  2:{ rewrite app_assoc_str. reflexivity. }
  rewrite substring_skip. apply substring_take.
Qed.

(* And of a name that is only the prefix and the extension. *)
Lemma slice_bare (pre ext : string) :
  String.length ext = 4 ->
  slice (String.length pre + 1) 4 (pre +:+ ext) = "".
Proof.
  intros Hext. unfold slice. rewrite length_app_str, Hext.
  replace (String.length pre + 4 - 4 - (String.length pre + 1)) with 0 by lia.
  apply substring_none.
Qed.

Lemma sorted_Permutation (l : list string) : Permutation (sorted l) l.
Proof. apply merge_sort_Permutation. Qed.

Lemma sorted_StronglySorted (l : list string) : StronglySorted String.le (sorted l).
Proof. apply StronglySorted_merge_sort; apply _. Qed.

(* sorted is the only ascending arrangement of the names. *)
Lemma sorted_unique (l l' : list string) :
  Permutation l' l -> StronglySorted String.le l' -> l' = sorted l.
Proof.
  intros HP HS.
  apply (StronglySorted_unique String.le); auto using sorted_StronglySorted.
  rewrite HP. symmetry. apply sorted_Permutation.
Qed.

(* --------------------------------------------------------------------- *)
(* fnmatch on patterns that start with ordinary characters                *)
(* --------------------------------------------------------------------- *)

Lemma translate_from_literal (b rest : string) :
  has_magic b = false ->
  translate_from 0 (b +:+ rest) = literal b ++ translate_from 0 rest.
Proof.
  induction b as [|c b IH]; intros Hm; [reflexivity|].
  cbn [has_magic] in Hm.
  apply orb_false_iff in Hm as [Hm Hb].
  apply orb_false_iff in Hm as [Hm H3].
  apply orb_false_iff in Hm as [H1 H2].
  rewrite app_cons_str. cbn [translate_from literal].
  rewrite H1, H2, H3, (IH Hb). reflexivity.
Qed.

Lemma matches_literal (b : string) (q : list token) (n : string) :
  matches (literal b ++ q) n = true <->
  exists n', n = b +:+ n' /\ matches q n' = true.
Proof.
  revert n. induction b as [|c b IH]; intros n.
  - cbn [literal app]. split.
    + intros H. now exists n.
    + now intros [n' [-> H]].
  - cbn [literal]. rewrite <- app_comm_cons. cbn [matches].
    destruct n as [|d n].
    + split; [discriminate|]. intros [n' [H _]]. rewrite app_cons_str in H. discriminate.
    + rewrite andb_true_iff, Ascii.eqb_eq, IH. split.
      * intros [-> [n' [-> H]]]. now exists n'.
      * intros [n' [H1 H2]]. rewrite app_cons_str in H1. injection H1 as -> ->.
        split; [reflexivity|]. now exists n'.
Qed.

Lemma matches_star (q : list token) (n : string) :
  matches (Star :: q) n = true <->
  exists pre post, n = pre +:+ post /\ matches q post = true.
Proof.
  cbn [matches]. induction n as [|c n IH].
  - rewrite orb_false_r. split.
    + intros H. now exists "", "".
    + intros [pre [post [H1 H2]]]. destruct pre; [|discriminate].
      rewrite app_nil_l_str in H1. now subst post.
  - rewrite orb_true_iff, IH. split.
    + intros [H | [pre [post [-> H]]]].
      * now exists "", (String c n).
      * now exists (String c pre), post.
    + intros [pre [post [H1 H2]]]. destruct pre as [|d pre].
      * rewrite app_nil_l_str in H1. subst post. now left.
      * rewrite app_cons_str in H1. injection H1 as -> ->. right. now exists pre, post.
Qed.

(* glob(basename + '*') picks the names that start with basename, when
   basename itself holds no metacharacter. *)
Lemma fnmatch_prefix (basename n : string) :
  has_magic basename = false ->
  fnmatch (basename +:+ "*") n = startswith basename n.
Proof.
  intros Hm. apply eq_true_iff_eq.
  unfold fnmatch, translate. rewrite translate_from_literal by assumption.
  change (translate_from 0 "*") with [Star].
  rewrite matches_literal, startswith_iff. split.
  - intros [n' [-> _]]. now exists n'.
  - intros [rest ->]. exists rest. split; [reflexivity|].
    apply matches_star. exists rest, "".
    split; [now rewrite app_nil_r_str | reflexivity].
Qed.

(* glob(basename + '*' + '.png') picks the names that are basename,
   anything, and the extension. *)
Lemma fnmatch_prefix_png (basename n : string) :
  has_magic basename = false ->
  fnmatch (basename +:+ "*" +:+ ".png") n = true <->
  exists mid, n = basename +:+ mid +:+ ".png".
Proof.
  intros Hm.
  unfold fnmatch, translate. rewrite translate_from_literal by assumption.
  change (translate_from 0 ("*" +:+ ".png")) with (Star :: literal ".png" ++ []).
  rewrite matches_literal. split.
  - intros [n' [-> H]]. apply matches_star in H as [mid [post [-> H]]].
    apply matches_literal in H as [e [-> H]].
    destruct e; [|discriminate]. now exists mid.
  - intros [mid ->]. exists (mid +:+ ".png"). split; [reflexivity|].
    apply matches_star. exists mid, ".png". split; [reflexivity|].
    apply matches_literal. now exists "".
Qed.

(* --------------------------------------------------------------------- *)
(* float comparison and min                                               *)
(* --------------------------------------------------------------------- *)

Lemma SFcompare_nan_l (y : pyfloat) : SFcompare S754_nan y = None.
Proof. reflexivity. Qed.

Lemma SFcompare_nan_r (x : pyfloat) : SFcompare x S754_nan = None.
Proof. now destruct x. Qed.

Lemma SFcompare_some (x y : pyfloat) :
  is_nan x = false -> is_nan y = false -> exists c, SFcompare x y = Some c.
Proof.
  intros Hx Hy.
  destruct x as [sx|sx| |sx mx ex], y as [sy|sy| |sy my ey];
    try discriminate; cbn; eauto.
Qed.

Lemma SFcompare_antisym (x y : pyfloat) :
  SFcompare y x = option_map CompOpp (SFcompare x y).
Proof.
  destruct x as [sx|sx| |sx mx ex], y as [sy|sy| |sy my ey]; cbn;
    try reflexivity;
    try (destruct sx; reflexivity);
    try (destruct sy; reflexivity);
    try (destruct sx, sy; reflexivity).
  change (Pos.compare_cont Eq mx my) with (Pos.compare mx my).
  change (Pos.compare_cont Eq my mx) with (Pos.compare my mx).
  destruct sx, sy; try reflexivity;
    rewrite (Z.compare_antisym ex ey), (Pos.compare_antisym mx my);
    destruct (ex ?= ey)%Z; cbn; try reflexivity;
    destruct (mx ?= my)%positive; reflexivity.
Qed.

(* Away from NaN, "not (x <= y)" and "y < x" are the same test. *)
Lemma not_SFleb_SFltb (x y : pyfloat) :
  is_nan x = false -> is_nan y = false -> negb (SFleb x y) = SFltb y x.
Proof.
  intros Hx Hy. unfold SFleb, SFltb. rewrite (SFcompare_antisym x y).
  destruct (SFcompare_some x y Hx Hy) as [c ->]. now destruct c.
Qed.

Lemma SFleb_refl (x : pyfloat) : is_nan x = false -> SFleb x x = true.
Proof.
  intros Hx. unfold SFleb.
  destruct x as [sx|sx| |sx mx ex]; try discriminate; cbn.
  - reflexivity.
  - now destruct sx.
  - change (Pos.compare_cont Eq mx mx) with (Pos.compare mx mx).
    rewrite Z.compare_refl, Pos.compare_refl. now destruct sx.
Qed.

Lemma SFltb_SFleb (x y : pyfloat) : SFltb x y = true -> SFleb x y = true.
Proof. unfold SFltb, SFleb. now destruct (SFcompare x y) as [[]|]. Qed.

Lemma SFleb_not_nan (x y : pyfloat) :
  SFleb x y = true -> is_nan x = false /\ is_nan y = false.
Proof.
  unfold SFleb. destruct x, y; cbn; try discriminate; auto.
Qed.

Lemma SFleb_trans (x y z : pyfloat) :
  SFleb x y = true -> SFleb y z = true -> SFleb x z = true.
Proof.
  unfold SFleb.
  destruct x as [sx|sx| |sx mx ex], y as [sy|sy| |sy my ey], z as [sz|sz| |sz mz ez];
    cbn; try discriminate; try reflexivity;
    try (destruct sx; try reflexivity; try discriminate;
         destruct sy; try reflexivity; try discriminate;
         destruct sz; try reflexivity; discriminate).
  change (Pos.compare_cont Eq mx my) with (Pos.compare mx my).
  change (Pos.compare_cont Eq my mz) with (Pos.compare my mz).
  change (Pos.compare_cont Eq mx mz) with (Pos.compare mx mz).
  destruct sx, sy, sz; try reflexivity; try discriminate;
    destruct (Z.compare_spec ex ey), (Z.compare_spec ey ez), (Z.compare_spec ex ez);
    try discriminate; try reflexivity; try lia;
    destruct (Pos.compare_spec mx my), (Pos.compare_spec my mz), (Pos.compare_spec mx mz);
    cbn; try discriminate; try reflexivity; lia.
Qed.

(* Without NaN among the scores, min returns one of them, and none is
   below it. *)
Lemma min_from_In (cur : pyfloat) (xs : list pyfloat) :
  In (min_from cur xs) (cur :: xs).
Proof.
  revert cur. induction xs as [|x xs IH]; intros cur; cbn [min_from].
  - now left.
  - destruct (IH (if SFltb x cur then x else cur)) as [H | H].
    + rewrite <- H. destruct (SFltb x cur); [right; now left | now left].
    + right. now right.
Qed.

Lemma min_from_least (cur : pyfloat) (xs : list pyfloat) :
  is_nan cur = false -> Forall (fun x => is_nan x = false) xs ->
  Forall (fun x => SFleb (min_from cur xs) x = true) (cur :: xs).
Proof.
  revert cur. induction xs as [|x xs IH]; intros cur Hc Hxs; cbn [min_from].
  - constructor; [now apply SFleb_refl | constructor].
  - apply Forall_cons_1 in Hxs as [Hx Hxs].
    destruct (SFltb x cur) eqn:E.
    + specialize (IH x Hx Hxs). apply Forall_cons_1 in IH as [H1 H2].
      constructor; [|constructor; assumption].
      eapply SFleb_trans; [exact H1 | now apply SFltb_SFleb].
    + specialize (IH cur Hc Hxs). apply Forall_cons_1 in IH as [H1 H2].
      constructor; [assumption|]. constructor; [|assumption].
      eapply SFleb_trans; [exact H1|].
      rewrite <- (not_SFleb_SFltb cur x Hc Hx) in E.
      now apply negb_false_iff in E.
Qed.

Lemma py_min_In (xs : list pyfloat) (d : pyfloat) :
  xs <> [] -> In (py_min xs d) xs.
Proof. destruct xs as [|x xs]; [congruence|]. intros _. apply min_from_In. Qed.

Lemma py_min_least (xs : list pyfloat) (d : pyfloat) :
  Forall (fun x => is_nan x = false) xs ->
  Forall (fun x => SFleb (py_min xs d) x = true) xs.
Proof.
  destruct xs as [|x xs]; [constructor|]. intros H.
  apply Forall_cons_1 in H as [Hx Hxs]. now apply min_from_least.
Qed.

(* --------------------------------------------------------------------- *)
(* pdftopng                                                               *)
(* --------------------------------------------------------------------- *)

Lemma is_nil_false {A} (l : list A) : is_nil l = false <-> l <> [].
Proof. destruct l; cbn; split; congruence. Qed.

Lemma filter_nonempty {A} (f : A -> bool) (l : list A) :
  List.filter f l <> [] <-> exists x, In x l /\ f x = true.
Proof.
  split.
  - intros H. destruct (List.filter f l) as [|x l'] eqn:E; [congruence|].
    exists x. apply List.filter_In. rewrite E. now left.
  - intros [x Hx] E. apply List.filter_In in Hx. rewrite E in Hx. destruct Hx.
Qed.

Lemma In_entries (fs : gmap string (list string)) (n : string) :
  In n (elements (dom fs)) <-> is_Some (fs !! n).
Proof. rewrite <- list_elem_of_In, elem_of_elements. apply elem_of_dom. Qed.

(* The three ways pdftopng can end. *)
Lemma pdftopng_run (sourcepath destdir basename : string) (dpi : Z) (w : world) :
  pdftopng sourcepath destdir basename dpi w =
  if negb (is_nil (List.filter (fnmatch (basename +:+ "*")) (elements (dom (files w))))) then
    (Raise (ValueError ("destdir not clean: " +:+ repr_dir destdir)), w)
  else
    let argv := pdftocairo_argv sourcepath destdir basename dpi in
    let '(returncode, _, fs) := os_exec argv (files w) in
    let w' := mkWorld fs (trace w ++ [argv]) in
    if (returncode =? 0)%Z then
      (Return (List.map (slice (String.length basename + 1) 4)
                 (sorted (List.filter (fnmatch (basename +:+ "*" +:+ ".png"))
                            (elements (dom fs))))), w')
    else (Raise (CalledProcessError returncode argv), w').
Proof.
  unfold pdftopng, bind, glob. cbn [files].
  destruct (negb (is_nil _)); [reflexivity|].
  unfold verbose_run_checked, pdftocairo_argv.
  destruct (os_exec _ (files w)) as [[returncode out] fs].
  destruct (returncode =? 0)%Z; reflexivity.
Qed.

(** C6, as amended.  For a name prefix that holds no glob metacharacter
    and no path separator: when the destination directory has an entry
    whose name starts with the prefix, pdftopng raises the "destdir not
    clean" ValueError and leaves the world as it was, so the rasteriser
    has not been run; when it has no such entry, pdftopng runs the
    rasteriser and raises no ValueError. *)
Theorem pdftopng_dirty_destination
    (sourcepath destdir basename : string) (dpi : Z) (w : world) :
  has_magic basename = false ->
  contains "/" basename = false ->
  let stale := exists n, is_Some (files w !! n) /\ startswith basename n = true in
  let r := pdftopng sourcepath destdir basename dpi w in
  (stale ->
   r = (Raise (ValueError ("destdir not clean: " +:+ repr_dir destdir)), w))
  /\ (~ stale ->
      (forall msg, fst r <> Raise (ValueError msg))
      /\ trace (snd r) = trace w ++ [pdftocairo_argv sourcepath destdir basename dpi]).
Proof.
  intros Hm _ stale r. subst r. rewrite pdftopng_run.
  assert (Hs : stale <->
               List.filter (fnmatch (basename +:+ "*")) (elements (dom (files w))) <> []).
  { rewrite filter_nonempty. unfold stale.
    split; intros [n [H1 H2]]; exists n.
    - rewrite In_entries, fnmatch_prefix by assumption. now split.
    - rewrite In_entries, fnmatch_prefix in * by assumption. now split. }
  split.
  - intros H. apply Hs, is_nil_false in H. now rewrite H.
  - intros H.
    assert (E : is_nil (List.filter (fnmatch (basename +:+ "*"))
                          (elements (dom (files w)))) = true).
    { destruct (is_nil _) eqn:E; [reflexivity|].
      apply is_nil_false, Hs in E. contradiction. }
    rewrite E. cbn [negb].
    destruct (os_exec _ (files w)) as [[returncode out] fs].
    destruct (returncode =? 0)%Z; cbn; split; congruence.
Qed.

Lemma Forall2_map_r {A B} (P : A -> B -> Prop) (f : A -> B) (l : list A) :
  (forall x, In x l -> P x (f x)) -> Forall2 P l (List.map f l).
Proof.
  induction l as [|x l IH]; intros H; cbn [List.map]; constructor.
  - apply H. now left.
  - apply IH. intros y Hy. apply H. now right.
Qed.

(** C7, as amended.  For a name prefix that holds no glob metacharacter
    and no path separator: when pdftopng returns, there is a list of
    names, the entries of the directory that are the prefix, anything
    and '.png', all of them new since the call, without repetition and
    in ascending order of str comparison (the one such arrangement),
    and the returned list has, name by name in that order, the page id
    of the name: what stands between the prefix plus one more character
    and '.png', or the empty id for the name that is the prefix and
    '.png' alone. *)
Theorem pdftopng_page_ids
    (sourcepath destdir basename : string) (dpi : Z) (w : world) (ids : list string) :
  has_magic basename = false ->
  contains "/" basename = false ->
  fst (pdftopng sourcepath destdir basename dpi w) = Return ids ->
  let w' := snd (pdftopng sourcepath destdir basename dpi w) in
  exists names : list string,
    (forall n, In n names <->
       is_Some (files w' !! n) /\ exists mid, n = basename +:+ mid +:+ ".png")
    /\ (forall n, In n names -> files w !! n = None)
    /\ NoDup names
    /\ StronglySorted String.le names
    /\ (forall l, Permutation l names -> StronglySorted String.le l -> l = names)
    /\ Forall2 (fun n pageno =>
                  (exists sep, n = basename +:+ String sep (pageno +:+ ".png"))
                  \/ (n = basename +:+ ".png" /\ pageno = ""))
               names ids.
Proof.
  intros Hm _ Hr. cbv zeta. rewrite pdftopng_run in *.
  destruct (negb (is_nil _)) eqn:Hstale; [discriminate|].
  cbv zeta in *.
  destruct (os_exec _ (files w)) as [[returncode out] fs].
  destruct (returncode =? 0)%Z; [|discriminate].
  cbn [fst snd files] in *. injection Hr as <-.
  set (names := sorted (List.filter (fnmatch (basename +:+ "*" +:+ ".png"))
                          (elements (dom fs)))).
  exists names.
  assert (Hin : forall n, In n names <->
                  is_Some (fs !! n) /\ exists mid, n = basename +:+ mid +:+ ".png").
  { intros n. unfold names.
    rewrite <- !list_elem_of_In, (sorted_Permutation _), list_elem_of_In.
    rewrite List.filter_In, In_entries, (fnmatch_prefix_png _ _ Hm). reflexivity. }
  split; [exact Hin|]. split.
  { intros n Hn. apply Hin in Hn as [_ [mid ->]].
    apply negb_false_iff in Hstale.
    destruct (files w !! (basename +:+ mid +:+ ".png")) eqn:E; [|reflexivity].
    exfalso.
    assert (Hne : List.filter (fnmatch (basename +:+ "*")) (elements (dom (files w))) <> []).
    { apply filter_nonempty. exists (basename +:+ mid +:+ ".png").
      rewrite In_entries, fnmatch_prefix, E by assumption.
      split; [eauto | apply startswith_app]. }
    apply is_nil_false in Hne. congruence. }
  split.
  { unfold names. rewrite (sorted_Permutation _).
    apply NoDup_ListNoDup, List.NoDup_filter, NoDup_ListNoDup, NoDup_elements. }
  split; [apply sorted_StronglySorted|]. split.
  { intros l HP HS. apply sorted_unique; [|assumption].
    rewrite HP. apply sorted_Permutation. }
  apply Forall2_map_r. intros n Hn. apply Hin in Hn as [_ [mid ->]].
  destruct mid as [|sep pageno].
  - right. split; [reflexivity|]. now apply slice_bare.
  - left. exists sep. rewrite (app_cons_str sep pageno ".png").
    now rewrite slice_name.
Qed.


(* --------------------------------------------------------------------- *)
(* imgdiff                                                                *)
(* --------------------------------------------------------------------- *)

(* With its assertions met, imgdiff runs the comparison, stores what the
   command wrote as the log, and goes by the exit status. *)
Lemma imgdiff_run (a b diff log : Path) (w : world)
    (returncode : Z) (lines : list string) (fs : gmap string (list string)) :
  imgdiff_ready a b diff log w ->
  os_exec (compare_argv a b diff) (<[name log := []]> (files w)) = (returncode, lines, fs) ->
  let w' := mkWorld (<[name log := lines]> fs) (trace w ++ [compare_argv a b diff]) in
  imgdiff a b diff log w =
  if (returncode >? 1)%Z then
    (Raise (ValueError ("compare crashed, status=" +:+ str_of_Z returncode)), w')
  else imgdiff_log lines w'.
Proof.
  intros (Ha & Hb & Hd & Hl) Hexec w'.
  unfold imgdiff, bind, is_file. cbv beta iota.
  rewrite (bool_decide_eq_true_2 _ Ha). cbn [py_assert ret]. cbv beta iota.
  rewrite (bool_decide_eq_true_2 _ Hb). cbn [py_assert ret]. cbv beta iota.
  assert (Hnone : bool_decide (is_Some (@None (list string))) = false).
  { apply bool_decide_eq_false_2. intros [? ?]; discriminate. }
  rewrite Hd, Hnone. cbn [py_assert negb ret]. cbv beta iota.
  rewrite Hl, Hnone. cbn [py_assert negb ret]. cbv beta iota.
  unfold verbose_run_logged. fold (compare_argv a b diff). rewrite Hexec.
  fold w'. destruct (returncode >? 1)%Z; [reflexivity|].
  unfold readlines. cbn [files w']. rewrite lookup_insert_eq. reflexivity.
Qed.

(* An assertion that fails stops imgdiff before any command is run. *)
Lemma imgdiff_not_ready (a b diff log : Path) (w : world) :
  ~ imgdiff_ready a b diff log w ->
  imgdiff a b diff log w = (Raise (AssertionError ""), w).
Proof.
  intros Hnot. unfold imgdiff, bind, is_file. cbv beta iota.
  destruct (bool_decide (is_Some (files w !! name a))) eqn:Ea; [|reflexivity].
  cbn [py_assert ret]. cbv beta iota.
  destruct (bool_decide (is_Some (files w !! name b))) eqn:Eb; [|reflexivity].
  cbn [py_assert ret]. cbv beta iota.
  destruct (bool_decide (is_Some (files w !! name diff))) eqn:Ed; [reflexivity|].
  cbn [py_assert ret negb]. cbv beta iota.
  destruct (bool_decide (is_Some (files w !! name log))) eqn:El; [reflexivity|].
  exfalso. apply Hnot.
  apply bool_decide_eq_true_1 in Ea, Eb.
  apply bool_decide_eq_false_1 in Ed, El.
  repeat split; auto.
  - destruct (files w !! name diff); [exfalso; eauto | reflexivity].
  - destruct (files w !! name log); [exfalso; eauto | reflexivity].
Qed.

(* The log part never raises the error of line 58. *)
Lemma imgdiff_log_no_crash (lines : list string) (w : world) (e : exn) :
  fst (imgdiff_log lines w) = Raise e -> is_crash_error e = false.
Proof.
  unfold imgdiff_log, bind.
  destruct (existsb _ lines); [now intros [= <-]|].
  destruct (length _ =? 1)%nat; cbn [py_assert ret raise]; [|now intros [= <-]].
  destruct (String.eqb _ "0"); [discriminate|].
  destruct (float_of_str _); [discriminate|]. now intros [= <-].
Qed.

(** C3.  When imgdiff gets to read the token (its assertions hold, the
    exit status is at most 1, no line reports differing sizes and
    exactly one line starts with the label): if the text after the
    label, stripped, is '0' the result is INFINITY, which does not
    compare equal to zero; for any other token the result is float() of
    the token, or the ValueError of float() when it has none. *)
Theorem imgdiff_zero_token
    (a b diff log : Path) (w : world)
    (returncode : Z) (lines : list string) (fs : gmap string (list string))
    (all_line : string) :
  imgdiff_ready a b diff log w ->
  os_exec (compare_argv a b diff) (<[name log := []]> (files w)) = (returncode, lines, fs) ->
  (returncode <= 1)%Z ->
  existsb (contains "image widths or heights differ") lines = false ->
  List.filter (startswith "    all: ") lines = [all_line] ->
  let all_str := strip (drop_str 9 all_line) in
  let r := fst (imgdiff a b diff log w) in
  (all_str = "0" ->
   r = Return INFINITY /\ SFeqb INFINITY (S754_zero false) = false)
  /\ (all_str <> "0" ->
      forall x, float_of_str all_str = Some x -> r = Return x)
  /\ (all_str <> "0" ->
      float_of_str all_str = None ->
      r = Raise (ValueError ("could not convert string to float: " +:+ repr_str all_str))).
Proof.
  intros Hready Hexec Hrc Hdiff Hall all_str r. subst r.
  rewrite (imgdiff_run _ _ _ _ _ _ _ _ Hready Hexec).
  destruct (Z.gtb_spec returncode 1) as [Hgt | _]; [lia|].
  unfold imgdiff_log, bind, PREF. rewrite Hdiff, Hall.
  cbn [length Nat.eqb py_assert ret List.hd String.length].
  fold all_str.
  split; [|split].
  - intros ->. split; reflexivity.
  - intros Hne x Hx. apply String.eqb_neq in Hne. now rewrite Hne, Hx.
  - intros Hne Hx. apply String.eqb_neq in Hne. now rewrite Hne, Hx.
Qed.

(** C4.  When imgdiff's assertions hold, so that the comparison is run:
    imgdiff raises the "compare crashed" ValueError exactly when the
    exit status is greater than 1; at any status up to 1, and so at 1,
    it goes on to the log and ends as the log part does. *)
Theorem imgdiff_crash_status
    (a b diff log : Path) (w : world)
    (returncode : Z) (lines : list string) (fs : gmap string (list string)) :
  imgdiff_ready a b diff log w ->
  os_exec (compare_argv a b diff) (<[name log := []]> (files w)) = (returncode, lines, fs) ->
  let w' := mkWorld (<[name log := lines]> fs) (trace w ++ [compare_argv a b diff]) in
  ((exists e, fst (imgdiff a b diff log w) = Raise e /\ is_crash_error e = true)
   <-> (returncode > 1)%Z)
  /\ ((returncode > 1)%Z ->
      imgdiff a b diff log w =
      (Raise (ValueError ("compare crashed, status=" +:+ str_of_Z returncode)), w'))
  /\ ((returncode <= 1)%Z ->
      imgdiff a b diff log w = imgdiff_log lines w').
Proof.
  intros Hready Hexec w'.
  rewrite (imgdiff_run _ _ _ _ _ _ _ _ Hready Hexec). fold w'.
  destruct (Z.gtb_spec returncode 1) as [Hgt | Hle].
  - split; [|split].
    + split; [intros _; lia|]. intros _. eexists. split; [reflexivity|].
      cbn [is_crash_error]. apply startswith_app.
    + reflexivity.
    + lia.
  - split; [|split].
    + split; [|lia]. intros [e [He Hc]].
      apply imgdiff_log_no_crash in He. congruence.
    + lia.
    + reflexivity.
Qed.

(* The size check of the log part *)
Lemma imgdiff_log_sizes_differ (lines : list string) (w : world) :
  (exists l, In l lines /\ contains "image widths or heights differ" l = true) ->
  imgdiff_log lines w = (Raise (ValueError "image widths or heights differ"), w).
Proof.
  intros H. apply existsb_exists in H. unfold imgdiff_log. now rewrite H.
Qed.

(* --------------------------------------------------------------------- *)
(* The page loop                                                          *)
(* --------------------------------------------------------------------- *)

Lemma compare_pages_app (p : string) (pre post : list string)
    (acc : list pyfloat) (w : world) :
  compare_pages p (pre ++ post) acc w =
  bind (compare_pages p pre acc) (compare_pages p post) w.
Proof.
  revert acc w. induction pre as [|pageno pre IH]; intros acc w; [reflexivity|].
  rewrite <- app_comm_cons. cbn [compare_pages]. unfold bind.
  destruct (imgdiff _ _ _ _ w) as [[s|e] w1]; [|reflexivity].
  rewrite IH. reflexivity.
Qed.

(* The loop adds one score per page, in page order. *)
Lemma compare_pages_scores (p : string) (pages : list string)
    (acc ss : list pyfloat) (w : world) :
  fst (compare_pages p pages acc w) = Return ss ->
  exists new, ss = acc ++ new /\ length new = length pages.
Proof.
  revert acc w. induction pages as [|pageno pages IH]; intros acc w.
  - cbn. intros [= <-]. exists []. now rewrite app_nil_r.
  - cbn [compare_pages]. unfold bind.
    destruct (imgdiff _ _ _ _ w) as [[s|e] w1]; [|discriminate].
    intros H. apply IH in H as [new [-> Hlen]].
    exists (s :: new). rewrite <- app_assoc. cbn. now rewrite Hlen.
Qed.

(* A page whose comparison raises ends the loop with that exception. *)
Lemma compare_pages_raise (p : string) (pre post : list string) (pageno : string)
    (acc ss : list pyfloat) (w : world) (e : exn) :
  fst (compare_pages p pre acc w) = Return ss ->
  fst (imgdiff (joinpath p ("a-" +:+ pageno +:+ ".png"))
               (joinpath p ("b-" +:+ pageno +:+ ".png"))
               (joinpath p ("diff-" +:+ pageno +:+ ".png"))
               (joinpath p ("log-" +:+ pageno +:+ ".txt"))
               (snd (compare_pages p pre acc w))) = Raise e ->
  fst (compare_pages p (pre ++ pageno :: post) acc w) = Raise e.
Proof.
  intros Hpre Hpage. rewrite compare_pages_app. unfold bind.
  destruct (compare_pages p pre acc w) as [[ss'|e'] w1]; [|discriminate].
  cbn [fst snd] in *. cbn [compare_pages]. unfold bind.
  destruct (imgdiff _ _ _ _ w1) as [[s|e''] w2]; [discriminate|].
  cbn in *. congruence.
Qed.

(* --------------------------------------------------------------------- *)
(* pdfdiff                                                                *)
(* --------------------------------------------------------------------- *)

(* A pdftopng that returns has run exactly one command. *)
Lemma pdftopng_trace (sourcepath destdir basename : string) (dpi : Z)
    (w : world) (ids : list string) :
  fst (pdftopng sourcepath destdir basename dpi w) = Return ids ->
  trace (snd (pdftopng sourcepath destdir basename dpi w)) =
  trace w ++ [pdftocairo_argv sourcepath destdir basename dpi].
Proof.
  rewrite pdftopng_run. destruct (negb (is_nil _)); [discriminate|].
  cbv zeta. destruct (os_exec _ (files w)) as [[returncode out] fs].
  destruct (returncode =? 0)%Z; [reflexivity | discriminate].
Qed.

Lemma rasterized_trace (d a b : string) (dpi : Z) (a_i b_i : list string) :
  fst (rasterized_a d a dpi) = Return a_i ->
  fst (rasterized_b d a b dpi) = Return b_i ->
  trace (snd (rasterized_b d a b dpi)) =
  [pdftocairo_argv a d "a" dpi; pdftocairo_argv b d "b" dpi].
Proof.
  intros Ha Hb. unfold rasterized_b in *.
  rewrite (pdftopng_trace _ _ _ _ _ _ Hb).
  unfold rasterized_a in *. rewrite (pdftopng_trace _ _ _ _ _ _ Ha). reflexivity.
Qed.

(* pdfdiff once both page lists are there: the branch on the lists. *)
Lemma pdfdiff_joined (d a b : string) (threshold : pyfloat) (dpi : Z)
    (a_i b_i : list string) :
  os_path_isfile a = true -> os_path_isfile b = true ->
  fst (rasterized_a d a dpi) = Return a_i ->
  fst (rasterized_b d a b dpi) = Return b_i ->
  pdfdiff d a b threshold dpi =
  let w := snd (rasterized_b d a b dpi) in
  if bool_decide (a_i = b_i) then
    if (0 <? length a_i)%nat then
      match compared d a b dpi a_i with
      | (Return significances, w') =>
          (Return (negb (SFleb (py_min significances INFINITY) threshold)), trace w')
      | (Raise e, w') => (Raise e, trace w')
      end
    else (Raise (AssertionError ""), trace w)
  else if (length a_i =? length b_i)%nat then
    (Raise (AssertionError ("mishap with weird page numbers: " +:+ repr_list a_i
                            +:+ " vs " +:+ repr_list b_i)), trace w)
  else (Return false, trace w).
Proof.
  intros Hfa Hfb Ha Hb. unfold pdfdiff. rewrite Hfa, Hfb. cbn [negb].
  unfold compared, rasterized_b, rasterized_a in *.
  unfold pdfdiff_in, bind, submit.
  destruct (pdftopng a d "a" dpi _) as [ra w1]. cbn [fst snd] in *. subst ra.
  destruct (pdftopng b d "b" dpi w1) as [rb w2]. cbn [fst snd] in *. subst rb.
  cbn [future_result ret]. cbv beta iota zeta.
  destruct (bool_decide (a_i = b_i)); cbn [negb].
  - destruct (0 <? length a_i)%nat; cbn [py_assert ret raise]; [|reflexivity].
    destruct (compare_pages d a_i [] w2) as [[ss|e] w3]; reflexivity.
  - destruct (length a_i =? length b_i)%nat; reflexivity.
Qed.

(** C1, as amended.  When both documents give the same non-empty list
    of page ids and every page is compared: pdfdiff returns True exactly
    when "minimum <= threshold" is false, the minimum being min() of
    the collected scores, one of them.  A minimum that compares equal
    to the threshold gives False.  When neither the threshold nor a
    score is NaN, the minimum is below or equal to every score and the
    verdict is True exactly when the threshold is strictly below it. *)
Theorem pdfdiff_verdict (d a b : string) (threshold : pyfloat) (dpi : Z)
    (ids : list string) (significances : list pyfloat) :
  os_path_isfile a = true -> os_path_isfile b = true ->
  fst (rasterized_a d a dpi) = Return ids ->
  fst (rasterized_b d a b dpi) = Return ids ->
  ids <> [] ->
  fst (compared d a b dpi ids) = Return significances ->
  let m := py_min significances INFINITY in
  let verdict := negb (SFleb m threshold) in
  pdfdiff d a b threshold dpi = (Return verdict, trace (snd (compared d a b dpi ids)))
  /\ length significances = length ids
  /\ In m significances
  /\ (SFeqb m threshold = true -> verdict = false)
  /\ (is_nan threshold = false ->
      Forall (fun s => is_nan s = false) significances ->
      Forall (fun s => SFleb m s = true) significances
      /\ (verdict = true <-> SFltb threshold m = true)).
Proof.
  intros Hfa Hfb Ha Hb Hne Hss m verdict.
  assert (Hlen : length significances = length ids).
  { apply compare_pages_scores in Hss as [new [-> Hlen]]. exact Hlen. }
  assert (Hin : In m significances).
  { apply py_min_In. destruct significances; [|discriminate].
    destruct ids; [congruence | discriminate]. }
  split; [|split; [exact Hlen | split; [exact Hin | split]]].
  - rewrite (pdfdiff_joined d a b threshold dpi ids ids Hfa Hfb Ha Hb). cbv zeta.
    rewrite bool_decide_eq_true_2 by reflexivity.
    destruct ids as [|pageno ids]; [congruence|]. cbn [length Nat.ltb Nat.leb].
    destruct (compared d a b dpi (pageno :: ids)) as [r w']. cbn [fst snd] in *.
    now subst r.
  - unfold verdict, SFeqb, SFleb. now destruct (SFcompare m threshold) as [[]|].
  - intros Ht Hs. split; [now apply py_min_least|].
    assert (Hm : is_nan m = false).
    { rewrite Forall_forall in Hs. apply Hs. now apply list_elem_of_In. }
    unfold verdict. now rewrite not_SFleb_SFltb.
Qed.

(** C2, as amended.  When the two page-id lists differ, pdfdiff runs the
    two rasterisations and nothing else, so no comparison is made for
    any page; when the lists also differ in length it returns False. *)
Theorem pdfdiff_page_lists_differ (d a b : string) (threshold : pyfloat) (dpi : Z)
    (a_i b_i : list string) :
  os_path_isfile a = true -> os_path_isfile b = true ->
  fst (rasterized_a d a dpi) = Return a_i ->
  fst (rasterized_b d a b dpi) = Return b_i ->
  a_i <> b_i ->
  snd (pdfdiff d a b threshold dpi) =
    [pdftocairo_argv a d "a" dpi; pdftocairo_argv b d "b" dpi]
  /\ Forall (fun argv => List.hd "" argv <> "compare") (snd (pdfdiff d a b threshold dpi))
  /\ (length a_i <> length b_i -> fst (pdfdiff d a b threshold dpi) = Return false).
Proof.
  intros Hfa Hfb Ha Hb Hne.
  rewrite (pdfdiff_joined d a b threshold dpi a_i b_i Hfa Hfb Ha Hb). cbv zeta.
  rewrite (bool_decide_eq_false_2 _ Hne).
  rewrite (rasterized_trace d a b dpi a_i b_i Ha Hb).
  assert (Htrace : forall r : outcome bool,
            snd (if (length a_i =? length b_i)%nat
                 then (Raise (AssertionError
                         ("mishap with weird page numbers: " +:+ repr_list a_i
                          +:+ " vs " +:+ repr_list b_i)),
                       [pdftocairo_argv a d "a" dpi; pdftocairo_argv b d "b" dpi])
                 else (r, [pdftocairo_argv a d "a" dpi; pdftocairo_argv b d "b" dpi]))
            = [pdftocairo_argv a d "a" dpi; pdftocairo_argv b d "b" dpi]).
  { intros r. now destruct (length a_i =? length b_i)%nat. }
  rewrite Htrace. split; [reflexivity|]. split.
  - repeat constructor; discriminate.
  - intros Hlen. apply Nat.eqb_neq in Hlen. now rewrite Hlen.
Qed.

(** C5, as amended.  When imgdiff's assertions hold and the comparison
    ends with a status of at most 1, a log line that contains 'image
    widths or heights differ' makes imgdiff raise the ValueError of that
    message instead of returning a score; and when this happens for a
    page of pdfdiff's loop, the pages before it compared, pdfdiff ends
    with that exception and gives no verdict. *)
Theorem sizes_differ_aborts (d a b : string) (threshold : pyfloat) (dpi : Z)
    (pre post : list string) (pageno : string) (scores : list pyfloat)
    (returncode : Z) (lines : list string) (fs : gmap string (list string)) :
  os_path_isfile a = true -> os_path_isfile b = true ->
  fst (rasterized_a d a dpi) = Return (pre ++ pageno :: post) ->
  fst (rasterized_b d a b dpi) = Return (pre ++ pageno :: post) ->
  fst (compared d a b dpi pre) = Return scores ->
  let w := snd (compared d a b dpi pre) in
  let pageapath := joinpath d ("a-" +:+ pageno +:+ ".png") in
  let pagebpath := joinpath d ("b-" +:+ pageno +:+ ".png") in
  let diffpath := joinpath d ("diff-" +:+ pageno +:+ ".png") in
  let logpath := joinpath d ("log-" +:+ pageno +:+ ".txt") in
  imgdiff_ready pageapath pagebpath diffpath logpath w ->
  os_exec (compare_argv pageapath pagebpath diffpath) (<[name logpath := []]> (files w))
    = (returncode, lines, fs) ->
  (returncode <= 1)%Z ->
  (exists l, In l lines /\ contains "image widths or heights differ" l = true) ->
  fst (imgdiff pageapath pagebpath diffpath logpath w)
    = Raise (ValueError "image widths or heights differ")
  /\ fst (pdfdiff d a b threshold dpi)
       = Raise (ValueError "image widths or heights differ").
Proof.
  intros Hfa Hfb Ha Hb Hpre w pageapath pagebpath diffpath logpath
         Hready Hexec Hrc Hline.
  assert (Himg : fst (imgdiff pageapath pagebpath diffpath logpath w)
                 = Raise (ValueError "image widths or heights differ")).
  { rewrite (imgdiff_run _ _ _ _ _ _ _ _ Hready Hexec).
    destruct (Z.gtb_spec returncode 1) as [Hgt | _]; [lia|].
    now rewrite imgdiff_log_sizes_differ. }
  split; [exact Himg|].
  rewrite (pdfdiff_joined d a b threshold dpi _ _ Hfa Hfb Ha Hb). cbv zeta.
  rewrite bool_decide_eq_true_2 by reflexivity.
  replace (0 <? length (pre ++ pageno :: post))%nat with true.
  2:{ symmetry. apply Nat.ltb_lt. rewrite length_app. cbn. lia. }
  pose proof (compare_pages_raise d pre post pageno [] scores _ _ Hpre Himg) as Hloop.
  fold (compared d a b dpi (pre ++ pageno :: post)) in Hloop.
  destruct (compared d a b dpi (pre ++ pageno :: post)) as [r w']. cbn [fst] in Hloop.
  now subst r.
Qed.

(** C8.  When the two page-id lists differ but have the same length,
    pdfdiff stops on the assertion of line 106, an AssertionError, with
    only the two rasterisations run and no verdict. *)
Theorem pdfdiff_weird_page_numbers (d a b : string) (threshold : pyfloat) (dpi : Z)
    (a_i b_i : list string) :
  os_path_isfile a = true -> os_path_isfile b = true ->
  fst (rasterized_a d a dpi) = Return a_i ->
  fst (rasterized_b d a b dpi) = Return b_i ->
  a_i <> b_i ->
  length a_i = length b_i ->
  pdfdiff d a b threshold dpi =
  (Raise (AssertionError ("mishap with weird page numbers: " +:+ repr_list a_i
                          +:+ " vs " +:+ repr_list b_i)),
   [pdftocairo_argv a d "a" dpi; pdftocairo_argv b d "b" dpi]).
Proof.
  intros Hfa Hfb Ha Hb Hne Hlen.
  rewrite (pdfdiff_joined d a b threshold dpi a_i b_i Hfa Hfb Ha Hb). cbv zeta.
  rewrite (bool_decide_eq_false_2 _ Hne).
  rewrite (rasterized_trace d a b dpi a_i b_i Ha Hb).
  apply Nat.eqb_eq in Hlen. now rewrite Hlen.
Qed.

(** C9.  min() of no scores with the default is INFINITY.  When both
    documents give no page at all, pdfdiff stops on the assertion of
    line 110, before the loop and the reduction.  And whenever pdfdiff
    returns a verdict for equal page lists, the scores it reduced were
    as many as the pages and at least one, so the default played no
    part in the minimum. *)
Theorem pdfdiff_no_pages (d a b : string) (threshold : pyfloat) (dpi : Z) :
  os_path_isfile a = true -> os_path_isfile b = true ->
  py_min [] INFINITY = INFINITY
  /\ (fst (rasterized_a d a dpi) = Return [] ->
      fst (rasterized_b d a b dpi) = Return [] ->
      pdfdiff d a b threshold dpi =
      (Raise (AssertionError ""),
       [pdftocairo_argv a d "a" dpi; pdftocairo_argv b d "b" dpi]))
  /\ (forall (ids : list string) (verdict : bool),
      fst (rasterized_a d a dpi) = Return ids ->
      fst (rasterized_b d a b dpi) = Return ids ->
      fst (pdfdiff d a b threshold dpi) = Return verdict ->
      exists significances,
        fst (compared d a b dpi ids) = Return significances
        /\ length significances = length ids
        /\ significances <> []
        /\ verdict = negb (SFleb (py_min significances INFINITY) threshold)
        /\ forall default, py_min significances default = py_min significances INFINITY).
Proof.
  intros Hfa Hfb. split; [reflexivity|]. split.
  - intros Ha Hb.
    rewrite (pdfdiff_joined d a b threshold dpi [] [] Hfa Hfb Ha Hb). cbv zeta.
    rewrite bool_decide_eq_true_2 by reflexivity. cbn [length Nat.ltb Nat.leb].
    now rewrite (rasterized_trace d a b dpi [] [] Ha Hb).
  - intros ids verdict Ha Hb.
    rewrite (pdfdiff_joined d a b threshold dpi ids ids Hfa Hfb Ha Hb). cbv zeta.
    rewrite bool_decide_eq_true_2 by reflexivity.
    destruct ids as [|pageno ids]; [discriminate|]. cbn [length Nat.ltb Nat.leb].
    destruct (compared d a b dpi (pageno :: ids)) as [[ss|e] w'] eqn:E;
      [|discriminate].
    cbn [fst]. intros [= <-]. exists ss.
    pose proof (compare_pages_scores d (pageno :: ids) [] ss
                  (snd (rasterized_b d a b dpi))) as Hlen.
    fold (compared d a b dpi (pageno :: ids)) in Hlen. rewrite E in Hlen.
    destruct (Hlen eq_refl) as [new [-> Hnew]]. cbn [app] in *.
    split; [reflexivity|]. split; [exact Hnew|].
    destruct new as [|s new]; [discriminate|].
    split; [discriminate|]. split; reflexivity.
Qed.

(* --------------------------------------------------------------------- *)
(* More on pdftopng                                                       *)
(* --------------------------------------------------------------------- *)

Lemma filter_empty {A} (f : A -> bool) (l : list A) :
  (forall x, In x l -> f x = false) -> List.filter f l = [].
Proof.
  intros H. destruct (List.filter f l) as [|x l'] eqn:E; [reflexivity|].
  assert (Hx : In x (List.filter f l)) by (rewrite E; now left).
  apply List.filter_In in Hx as [Hx Hf]. rewrite (H x Hx) in Hf. discriminate.
Qed.

(* pdftopng runs no command or one, and when it runs none it has raised
   the ValueError of line 23. *)
Lemma pdftopng_commands (sourcepath destdir basename : string) (dpi : Z) (w : world) :
  (trace (snd (pdftopng sourcepath destdir basename dpi w)) = trace w
   /\ fst (pdftopng sourcepath destdir basename dpi w)
      = Raise (ValueError ("destdir not clean: " +:+ repr_dir destdir)))
  \/ trace (snd (pdftopng sourcepath destdir basename dpi w))
     = trace w ++ [pdftocairo_argv sourcepath destdir basename dpi].
Proof.
  rewrite pdftopng_run. destruct (negb (is_nil _)); [left; now split|].
  right. cbv zeta. destruct (os_exec _ (files w)) as [[returncode out] fs].
  now destruct (returncode =? 0)%Z.
Qed.

(** X1.  For a prefix that is one plain path component (no glob
    metacharacter, no path separator, not empty and not '.'): when no
    entry of the destination starts with the prefix and the rasteriser
    ends with a status other than 0, pdftopng raises
    CalledProcessError with that status and the command line, returns
    no page list, and the directory is as the rasteriser left it. *)
Theorem pdftopng_rasterizer_failure
    (sourcepath destdir basename : string) (dpi : Z) (w : world)
    (returncode : Z) (out : list string) (fs : gmap string (list string)) :
  has_magic basename = false ->
  contains "/" basename = false ->
  basename <> "" ->
  basename <> "." ->
  (forall n, is_Some (files w !! n) -> startswith basename n = false) ->
  os_exec (pdftocairo_argv sourcepath destdir basename dpi) (files w)
    = (returncode, out, fs) ->
  returncode <> 0%Z ->
  pdftopng sourcepath destdir basename dpi w
  = (Raise (CalledProcessError returncode
              (pdftocairo_argv sourcepath destdir basename dpi)),
     mkWorld fs (trace w ++ [pdftocairo_argv sourcepath destdir basename dpi])).
Proof.
  intros Hm _ _ _ Hclean Hexec Hrc. rewrite pdftopng_run.
  rewrite filter_empty.
  2:{ intros n Hn. rewrite fnmatch_prefix by assumption.
      apply Hclean. now apply In_entries. }
  cbn [is_nil negb]. cbv zeta. rewrite Hexec.
  apply Z.eqb_neq in Hrc. now rewrite Hrc.
Qed.

(* Both rasterisations together run nothing but pdftocairo. *)
Lemma rasterized_commands (d a b : string) (dpi : Z) :
  Forall (fun argv => List.hd "" argv = "pdftocairo")
         (trace (snd (rasterized_b d a b dpi))).
Proof.
  unfold rasterized_b, rasterized_a.
  destruct (pdftopng_commands b d "b" dpi (snd (pdftopng a d "a" dpi (mkWorld ∅ []))))
    as [[-> _] | ->];
    destruct (pdftopng_commands a d "a" dpi (mkWorld ∅ [])) as [[-> _] | ->];
    cbn [trace app]; repeat constructor.
Qed.

(** X2.  A rasterisation that raises ends pdfdiff with that exception:
    document a's exception is the one raised when a fails (whatever b
    did), and b's when only b fails.  Document b has been through
    pdftopng in both cases, and no comparison has been run. *)
Theorem pdfdiff_rasterization_failure
    (d a b : string) (threshold : pyfloat) (dpi : Z) :
  os_path_isfile a = true -> os_path_isfile b = true ->
  (forall e, fst (rasterized_a d a dpi) = Raise e ->
     pdfdiff d a b threshold dpi = (Raise e, trace (snd (rasterized_b d a b dpi))))
  /\ (forall a_i e, fst (rasterized_a d a dpi) = Return a_i ->
        fst (rasterized_b d a b dpi) = Raise e ->
        pdfdiff d a b threshold dpi = (Raise e, trace (snd (rasterized_b d a b dpi))))
  /\ Forall (fun argv => List.hd "" argv = "pdftocairo")
            (trace (snd (rasterized_b d a b dpi))).
Proof.
  intros Hfa Hfb. split; [|split; [|apply rasterized_commands]].
  - intros e Ha. unfold pdfdiff. rewrite Hfa, Hfb. cbn [negb].
    unfold rasterized_b, rasterized_a in *.
    unfold pdfdiff_in, bind, submit.
    destruct (pdftopng a d "a" dpi _) as [ra w1]. cbn [fst snd] in *. subst ra.
    destruct (pdftopng b d "b" dpi w1) as [rb w2]. reflexivity.
  - intros a_i e Ha Hb. unfold pdfdiff. rewrite Hfa, Hfb. cbn [negb].
    unfold rasterized_b, rasterized_a in *.
    unfold pdfdiff_in, bind, submit.
    destruct (pdftopng a d "a" dpi _) as [ra w1]. cbn [fst snd] in *. subst ra.
    destruct (pdftopng b d "b" dpi w1) as [rb w2]. cbn [fst snd] in *. subst rb.
    reflexivity.
Qed.

Lemma get_skip (pre s : string) :
  String.get (String.length pre) (pre +:+ s) = String.get 0 s.
Proof.
  induction pre as [|c pre IH]; [reflexivity|].
  rewrite app_cons_str. cbn [String.length String.get]. exact IH.
Qed.

(** X13.  For a prefix without glob metacharacters and without path
    separator: when every name that matches prefix + '*.png' after the
    rasterisation has '-' right after the prefix, the page ids pdftopng
    returns are pairwise distinct, and rebuilding '<prefix>-<id>.png'
    from them, in order, gives exactly the sorted names. *)
Theorem pdftopng_dash_names
    (sourcepath destdir basename : string) (dpi : Z) (w : world) (ids : list string) :
  has_magic basename = false ->
  contains "/" basename = false ->
  fst (pdftopng sourcepath destdir basename dpi w) = Return ids ->
  (forall n, is_Some (files (snd (pdftopng sourcepath destdir basename dpi w)) !! n) ->
             fnmatch (basename +:+ "*" +:+ ".png") n = true ->
             String.get (String.length basename) n = Some "-"%char) ->
  NoDup ids
  /\ List.map (fun pageno => basename +:+ "-" +:+ pageno +:+ ".png") ids
     = sorted (List.filter (fnmatch (basename +:+ "*" +:+ ".png"))
                 (elements (dom (files (snd (pdftopng sourcepath destdir basename dpi w)))))).
Proof.
  intros Hm _ Hr Hdash. revert Hr Hdash. rewrite pdftopng_run.
  destruct (negb (is_nil _)); [discriminate|]. cbv zeta.
  destruct (os_exec _ (files w)) as [[returncode out] fs].
  destruct (returncode =? 0)%Z; [|discriminate].
  cbn [fst snd files]. intros [= <-] Hdash.
  set (names := sorted (List.filter (fnmatch (basename +:+ "*" +:+ ".png"))
                          (elements (dom fs)))).
  assert (Hin : forall n, In n names ->
            is_Some (fs !! n) /\ fnmatch (basename +:+ "*" +:+ ".png") n = true).
  { intros n. unfold names.
    rewrite <- list_elem_of_In, (sorted_Permutation _), list_elem_of_In.
    rewrite List.filter_In, In_entries. auto. }
  assert (Hnd : List.NoDup names).
  { apply NoDup_ListNoDup. unfold names. rewrite (sorted_Permutation _).
    apply NoDup_ListNoDup, List.NoDup_filter, NoDup_ListNoDup, NoDup_elements. }
  assert (Hback : List.map (fun pageno => basename +:+ "-" +:+ pageno +:+ ".png")
                    (List.map (slice (String.length basename + 1) 4) names) = names).
  { rewrite List.map_map. rewrite <- (List.map_id names) at 2.
    apply List.map_ext_in. intros n Hn.
    destruct (Hin n Hn) as [Hsome Hmatch].
    pose proof (Hdash n Hsome Hmatch) as Hget.
    apply (fnmatch_prefix_png _ _ Hm) in Hmatch as [mid ->].
    rewrite get_skip in Hget.
    destruct mid as [|sep pageno]; [discriminate|].
    rewrite app_cons_str in Hget. cbn [String.get] in Hget. injection Hget as ->.
    rewrite (app_cons_str "-" pageno ".png"), slice_name by reflexivity.
    reflexivity. }
  split; [|exact Hback].
  apply NoDup_ListNoDup.
  apply (List.NoDup_map_inv (fun pageno => basename +:+ "-" +:+ pageno +:+ ".png")).
  now rewrite Hback.
Qed.

(* --------------------------------------------------------------------- *)
(* More on imgdiff                                                        *)
(* --------------------------------------------------------------------- *)

(* The log part only reads. *)
Lemma imgdiff_log_world (lines : list string) (w : world) :
  snd (imgdiff_log lines w) = w.
Proof.
  unfold imgdiff_log, bind.
  destruct (existsb _ lines); [reflexivity|].
  destruct (length _ =? 1)%nat; cbn [py_assert ret raise]; [|reflexivity].
  destruct (String.eqb _ "0"); [reflexivity|].
  now destruct (float_of_str _).
Qed.

Lemma imgdiff_ready_dec (a b diff log : Path) (w : world) :
  imgdiff_ready a b diff log w \/ ~ imgdiff_ready a b diff log w.
Proof.
  unfold imgdiff_ready.
  destruct (files w !! name a); [|right; intros [[? ?] _]; discriminate].
  destruct (files w !! name b); [|right; intros (_ & [? ?] & _); discriminate].
  destruct (files w !! name diff); [right; intros (_ & _ & ? & _); discriminate|].
  destruct (files w !! name log); [right; intros (_ & _ & _ & ?); discriminate|].
  left. repeat split; eauto.
Qed.

(* After the comparison has been run the world is the same whatever
   imgdiff makes of the status and the log. *)
Lemma imgdiff_world (a b diff log : Path) (w : world)
    (returncode : Z) (lines : list string) (fs : gmap string (list string)) :
  imgdiff_ready a b diff log w ->
  os_exec (compare_argv a b diff) (<[name log := []]> (files w)) = (returncode, lines, fs) ->
  snd (imgdiff a b diff log w)
  = mkWorld (<[name log := lines]> fs) (trace w ++ [compare_argv a b diff]).
Proof.
  intros Hready Hexec. rewrite (imgdiff_run _ _ _ _ _ _ _ _ Hready Hexec).
  destruct (returncode >? 1)%Z; [reflexivity | apply imgdiff_log_world].
Qed.

(** X4.  imgdiff runs the comparison exactly when its four assertions
    hold (both images are entries, the diff image and the log are not).
    When one of them fails, imgdiff raises AssertionError and the world
    is untouched: no command is run and no log is created. *)
Theorem imgdiff_assertions (a b diff log : Path) (w : world) :
  (~ imgdiff_ready a b diff log w ->
   imgdiff a b diff log w = (Raise (AssertionError ""), w))
  /\ (imgdiff_ready a b diff log w <->
      trace (snd (imgdiff a b diff log w)) = trace w ++ [compare_argv a b diff]).
Proof.
  split; [apply imgdiff_not_ready|]. split.
  - intros Hready.
    destruct (os_exec (compare_argv a b diff) (<[name log := []]> (files w)))
      as [[returncode lines] fs] eqn:Hexec.
    now rewrite (imgdiff_world _ _ _ _ _ _ _ _ Hready Hexec).
  - intros Htrace. destruct (imgdiff_ready_dec a b diff log w) as [H | H]; [exact H|].
    rewrite (imgdiff_not_ready _ _ _ _ _ H) in Htrace. cbn [snd] in Htrace.
    apply (f_equal (@length _)) in Htrace. rewrite length_app in Htrace.
    cbn [length] in Htrace. lia.
Qed.

(** X5.  Once imgdiff's assertions hold, whatever the outcome (a crash
    status, a size mismatch, a failed parse or a score), afterwards the
    log entry holds exactly what the comparison wrote, every other
    entry is as the comparison left it, and one command has been
    run. *)
Theorem imgdiff_leaves_log (a b diff log : Path) (w : world)
    (returncode : Z) (lines : list string) (fs : gmap string (list string)) :
  imgdiff_ready a b diff log w ->
  os_exec (compare_argv a b diff) (<[name log := []]> (files w)) = (returncode, lines, fs) ->
  let w' := snd (imgdiff a b diff log w) in
  files w' !! name log = Some lines
  /\ (forall n, n <> name log -> files w' !! n = fs !! n)
  /\ trace w' = trace w ++ [compare_argv a b diff].
Proof.
  intros Hready Hexec w'. subst w'.
  rewrite (imgdiff_world _ _ _ _ _ _ _ _ Hready Hexec). cbn [files trace].
  split; [apply lookup_insert_eq|]. split; [|reflexivity].
  intros n Hn. now apply lookup_insert_ne.
Qed.

(** X6.  When the comparison ends with a status of at most 1 and no
    line reports differing sizes, a log in which the number of lines
    starting with '    all: ' is not exactly one (none, or several)
    makes imgdiff raise AssertionError. *)
Theorem imgdiff_label_count (a b diff log : Path) (w : world)
    (returncode : Z) (lines : list string) (fs : gmap string (list string)) :
  imgdiff_ready a b diff log w ->
  os_exec (compare_argv a b diff) (<[name log := []]> (files w)) = (returncode, lines, fs) ->
  (returncode <= 1)%Z ->
  existsb (contains "image widths or heights differ") lines = false ->
  length (List.filter (startswith "    all: ") lines) <> 1 ->
  fst (imgdiff a b diff log w) = Raise (AssertionError "").
Proof.
  intros Hready Hexec Hrc Hdiff Hcount.
  rewrite (imgdiff_run _ _ _ _ _ _ _ _ Hready Hexec).
  destruct (Z.gtb_spec returncode 1) as [Hgt | _]; [lia|].
  unfold imgdiff_log, bind, PREF. rewrite Hdiff.
  apply Nat.eqb_neq in Hcount. now rewrite Hcount.
Qed.

Lemma lstrip_length (s : string) : String.length (lstrip s) <= String.length s.
Proof.
  induction s as [|c s IH]; [reflexivity|].
  cbn [lstrip]. destruct (isspace c); cbn [String.length]; lia.
Qed.

Lemma lstrip_fixed (c : ascii) (s : string) :
  lstrip (String c s) = String c s -> isspace c = false.
Proof.
  cbn [lstrip]. destruct (isspace c); [|reflexivity].
  intros H. apply (f_equal String.length) in H. cbn [String.length] in H.
  pose proof (lstrip_length s). lia.
Qed.

Lemma lstrip_all_space (s : string) : all_space s = true -> lstrip s = "".
Proof.
  induction s as [|c s IH]; [reflexivity|].
  cbn [all_space lstrip]. intros [Hc Hs]%andb_true_iff. rewrite Hc. auto.
Qed.

Lemma lstrip_app_space (l s : string) :
  all_space l = true -> lstrip (l +:+ s) = lstrip s.
Proof.
  induction l as [|c l IH]; [reflexivity|].
  cbn [all_space]. intros [Hc Hl]%andb_true_iff.
  rewrite app_cons_str. cbn [lstrip]. rewrite Hc. auto.
Qed.

Lemma rstrip_all_space (s : string) : all_space s = true -> rstrip s = "".
Proof.
  induction s as [|c s IH]; [reflexivity|].
  cbn [all_space rstrip]. intros [Hc Hs]%andb_true_iff.
  now rewrite (IH Hs), Hc.
Qed.

Lemma rstrip_app_space (s r : string) :
  all_space r = true -> rstrip (s +:+ r) = rstrip s.
Proof.
  intros Hr. induction s as [|c s IH].
  - rewrite app_nil_l_str. now apply rstrip_all_space.
  - rewrite app_cons_str. cbn [rstrip]. now rewrite IH.
Qed.

(* strip() removes white space around a token that has none at its own
   ends, and only that. *)
Lemma strip_padded (l t r : string) :
  all_space l = true -> all_space r = true ->
  lstrip t = t -> rstrip t = t ->
  strip (l +:+ t +:+ r) = t.
Proof.
  intros Hl Hr Hlt Hrt. unfold strip. rewrite (lstrip_app_space _ _ Hl).
  destruct t as [|c t].
  - rewrite app_nil_l_str, (lstrip_all_space _ Hr). reflexivity.
  - pose proof (lstrip_fixed _ _ Hlt) as Hc.
    rewrite app_cons_str. cbn [lstrip]. rewrite Hc.
    rewrite <- app_cons_str, (rstrip_app_space _ _ Hr). exact Hrt.
Qed.

Lemma drop_str_app (pre s : string) : drop_str (String.length pre) (pre +:+ s) = s.
Proof.
  induction pre as [|c pre IH]; [reflexivity|].
  rewrite app_cons_str. cbn [String.length drop_str]. exact IH.
Qed.

(** X7.  White space between the label and the token, and after the
    token (the end of line included), does not matter: when the one
    label line is '    all: ', white space, a token with no white space
    at its ends, white space, imgdiff returns INFINITY for the token
    '0' and otherwise what float() makes of the token. *)
Theorem imgdiff_padded_token (a b diff log : Path) (w : world)
    (returncode : Z) (lines : list string) (fs : gmap string (list string))
    (pad1 token pad2 : string) :
  imgdiff_ready a b diff log w ->
  os_exec (compare_argv a b diff) (<[name log := []]> (files w)) = (returncode, lines, fs) ->
  (returncode <= 1)%Z ->
  existsb (contains "image widths or heights differ") lines = false ->
  List.filter (startswith "    all: ") lines = ["    all: " +:+ pad1 +:+ token +:+ pad2] ->
  all_space pad1 = true -> all_space pad2 = true ->
  lstrip token = token -> rstrip token = token ->
  fst (imgdiff a b diff log w)
  = if String.eqb token "0" then Return INFINITY
    else match float_of_str token with
         | Some x => Return x
         | None => Raise (ValueError ("could not convert string to float: "
                                      +:+ repr_str token))
         end.
Proof.
  intros Hready Hexec Hrc Hdiff Hall Hp1 Hp2 Hl Hr.
  rewrite (imgdiff_run _ _ _ _ _ _ _ _ Hready Hexec).
  destruct (Z.gtb_spec returncode 1) as [Hgt | _]; [lia|].
  unfold imgdiff_log, bind, PREF. rewrite Hdiff, Hall.
  cbn [length Nat.eqb py_assert ret List.hd].
  rewrite drop_str_app, (strip_padded _ _ _ Hp1 Hp2 Hl Hr).
  destruct (String.eqb token "0"); [reflexivity|].
  now destruct (float_of_str token).
Qed.

(** X8.  The log is never reused: once imgdiff has run the comparison
    for a log path, any further imgdiff call with the same log path, on
    the world it left, raises AssertionError without running
    anything. *)
Theorem imgdiff_log_not_reused (a b diff log a' b' diff' : Path) (w : world) :
  imgdiff_ready a b diff log w ->
  let w' := snd (imgdiff a b diff log w) in
  imgdiff a' b' diff' log w' = (Raise (AssertionError ""), w').
Proof.
  intros Hready w'.
  apply imgdiff_not_ready. intros (_ & _ & _ & Hlog).
  destruct (os_exec (compare_argv a b diff) (<[name log := []]> (files w)))
    as [[returncode lines] fs] eqn:Hexec.
  subst w'. rewrite (imgdiff_world _ _ _ _ _ _ _ _ Hready Hexec) in Hlog.
  cbn [files] in Hlog. rewrite lookup_insert_eq in Hlog. discriminate.
Qed.

(* --------------------------------------------------------------------- *)
(* More on the page loop and pdfdiff                                      *)
(* --------------------------------------------------------------------- *)

(* One imgdiff call runs no command, and then has raised, or one. *)
Lemma imgdiff_commands (a b diff log : Path) (w : world) :
  (trace (snd (imgdiff a b diff log w)) = trace w
   /\ fst (imgdiff a b diff log w) = Raise (AssertionError ""))
  \/ trace (snd (imgdiff a b diff log w)) = trace w ++ [compare_argv a b diff].
Proof.
  destruct (imgdiff_ready_dec a b diff log w) as [H | H].
  - right.
    destruct (os_exec (compare_argv a b diff) (<[name log := []]> (files w)))
      as [[returncode lines] fs] eqn:Hexec.
    now rewrite (imgdiff_world _ _ _ _ _ _ _ _ H Hexec).
  - left. now rewrite (imgdiff_not_ready _ _ _ _ _ H).
Qed.

(* The commands of the page loop are the comparisons of the first k
   pages for some k, in page order, and of all the pages when the loop
   returns its scores. *)
Lemma compare_pages_commands (p : string) (pages : list string)
    (acc : list pyfloat) (w : world) :
  exists k,
    k <= length pages
    /\ trace (snd (compare_pages p pages acc w))
       = trace w ++ List.map (page_argv p) (take k pages)
    /\ (forall scores, fst (compare_pages p pages acc w) = Return scores ->
        k = length pages).
Proof.
  revert acc w. induction pages as [|pageno pages IH]; intros acc w.
  - exists 0. cbn. rewrite app_nil_r. auto.
  - cbn [compare_pages]. unfold bind.
    pose proof (imgdiff_commands
                  (joinpath p ("a-" +:+ pageno +:+ ".png"))
                  (joinpath p ("b-" +:+ pageno +:+ ".png"))
                  (joinpath p ("diff-" +:+ pageno +:+ ".png"))
                  (joinpath p ("log-" +:+ pageno +:+ ".txt")) w) as Hcmd.
    fold (page_argv p pageno) in Hcmd.
    destruct (imgdiff _ _ _ _ w) as [[s|e] w1]; cbn [fst snd] in *.
    + destruct Hcmd as [[_ Hfail] | Hrun]; [discriminate|].
      destruct (IH (acc ++ [s]) w1) as (k & Hk & Htrace & Hall).
      exists (S k). split; [cbn; lia|]. split.
      * rewrite Htrace, Hrun, <- app_assoc. reflexivity.
      * intros scores Hscores. cbn. f_equal. eauto.
    + destruct Hcmd as [[Hnone _] | Hrun].
      * exists 0. split; [lia|]. split; [|discriminate].
        cbn. now rewrite app_nil_r.
      * exists 1. split; [cbn; lia|]. split; [|discriminate].
        cbn. rewrite take_0. exact Hrun.
Qed.

(* The commands of a run that ends in a verdict for equal page lists,
   as the model orders the two rasterisations. *)
Lemma pdfdiff_verdict_trace (d a b : string) (threshold : pyfloat) (dpi : Z)
    (ids : list string) (verdict : bool) :
  os_path_isfile a = true -> os_path_isfile b = true ->
  fst (rasterized_a d a dpi) = Return ids ->
  fst (rasterized_b d a b dpi) = Return ids ->
  fst (pdfdiff d a b threshold dpi) = Return verdict ->
  snd (pdfdiff d a b threshold dpi)
  = [pdftocairo_argv a d "a" dpi; pdftocairo_argv b d "b" dpi]
    ++ List.map (page_argv d) ids.
Proof.
  intros Hfa Hfb Ha Hb.
  rewrite (pdfdiff_joined d a b threshold dpi ids ids Hfa Hfb Ha Hb). cbv zeta.
  rewrite bool_decide_eq_true_2 by reflexivity.
  destruct (0 <? length ids)%nat; [|discriminate].
  destruct (compare_pages_commands d ids [] (snd (rasterized_b d a b dpi)))
    as (k & _ & Htrace & Hall).
  fold (compared d a b dpi ids) in Htrace, Hall.
  destruct (compared d a b dpi ids) as [[ss|e] w'] eqn:E; [|discriminate].
  cbn [fst snd] in *. intros _.
  rewrite Htrace, (Hall ss eq_refl), firstn_all.
  now rewrite (rasterized_trace d a b dpi ids ids Ha Hb).
Qed.

(** X10.  Whenever pdfdiff returns a verdict for two equal page lists,
    the commands it has run are the two rasterisations, of a and of b
    in one order or the other, and after them one comparison for each
    page id, in the order of the list, and nothing else. *)
Theorem pdfdiff_commands (d a b : string) (threshold : pyfloat) (dpi : Z)
    (ids : list string) (verdict : bool) :
  os_path_isfile a = true -> os_path_isfile b = true ->
  fst (rasterized_a d a dpi) = Return ids ->
  fst (rasterized_b d a b dpi) = Return ids ->
  fst (pdfdiff d a b threshold dpi) = Return verdict ->
  exists rasterizations,
    Permutation rasterizations
      [pdftocairo_argv a d "a" dpi; pdftocairo_argv b d "b" dpi]
    /\ snd (pdfdiff d a b threshold dpi)
       = rasterizations ++ List.map (page_argv d) ids.
Proof.
  intros Hfa Hfb Ha Hb Hv.
  exists [pdftocairo_argv a d "a" dpi; pdftocairo_argv b d "b" dpi].
  split; [reflexivity|].
  exact (pdfdiff_verdict_trace d a b threshold dpi ids verdict Hfa Hfb Ha Hb Hv).
Qed.

(** X11.  The threshold only enters the final test: two runs of pdfdiff
    that differ in the threshold alone run the same commands and raise
    the same exceptions, and lowering the threshold never turns a
    verdict of True into False (nor does raising it turn False into
    True). *)
Theorem pdfdiff_threshold_monotone (d a b : string) (t t' : pyfloat) (dpi : Z) :
  snd (pdfdiff d a b t dpi) = snd (pdfdiff d a b t' dpi)
  /\ (forall e, fst (pdfdiff d a b t dpi) = Raise e
                <-> fst (pdfdiff d a b t' dpi) = Raise e)
  /\ (SFleb t' t = true ->
      (fst (pdfdiff d a b t dpi) = Return true ->
       fst (pdfdiff d a b t' dpi) = Return true)
      /\ (fst (pdfdiff d a b t' dpi) = Return false ->
          fst (pdfdiff d a b t dpi) = Return false)).
Proof.
  assert (Hmono : forall m, SFleb t' t = true ->
            (negb (SFleb m t) = true -> negb (SFleb m t') = true)).
  { intros m Hle. rewrite !negb_true_iff. intros Hm.
    destruct (SFleb m t') eqn:E; [|reflexivity].
    now rewrite (SFleb_trans _ _ _ E Hle) in Hm. }
  unfold pdfdiff.
  destruct (os_path_isfile a); cbn [negb]; [|now repeat split].
  destruct (os_path_isfile b); cbn [negb]; [|now repeat split].
  unfold pdfdiff_in, bind, submit.
  destruct (pdftopng a d "a" dpi _) as [[a_i|ea] w1];
    destruct (pdftopng b d "b" dpi w1) as [[b_i|eb] w2];
    cbn [future_result ret raise]; cbv beta iota zeta;
    try (now repeat split).
  destruct (bool_decide (a_i = b_i)); cbn [negb].
  - destruct (0 <? length a_i)%nat; cbn [py_assert ret raise];
      [|now repeat split].
    destruct (compare_pages d a_i [] w2) as [[ss|e] w3]; [|now repeat split].
    unfold ret. cbn [fst snd trace]. split; [reflexivity|]. split; [split; discriminate|].
    intros Hle. split.
    + intros [= H]. f_equal. now apply Hmono.
    + intros [= H]. f_equal.
      destruct (negb (SFleb (py_min ss INFINITY) t)) eqn:E; [|reflexivity].
      apply (Hmono _ Hle) in E. congruence.
  - destruct (length a_i =? length b_i)%nat; cbn [py_assert ret raise negb];
      now repeat split.
Qed.

Lemma min_from_same (x : pyfloat) (xs : list pyfloat) :
  Forall (fun s => s = x) xs -> min_from x xs = x.
Proof.
  induction xs as [|y xs IH]; [reflexivity|].
  intros H. apply Forall_cons_1 in H as [-> H]. cbn [min_from].
  destruct (SFltb x x); auto.
Qed.

(** X12.  When every page scores INFINITY (no measured difference on
    any page), pdfdiff's verdict is True for every threshold except
    positive infinity, for which it is False. *)
Theorem pdfdiff_all_infinite (d a b : string) (threshold : pyfloat) (dpi : Z)
    (ids : list string) (significances : list pyfloat) :
  os_path_isfile a = true -> os_path_isfile b = true ->
  fst (rasterized_a d a dpi) = Return ids ->
  fst (rasterized_b d a b dpi) = Return ids ->
  ids <> [] ->
  fst (compared d a b dpi ids) = Return significances ->
  Forall (fun s => s = INFINITY) significances ->
  fst (pdfdiff d a b threshold dpi) = Return (negb (SFeqb threshold INFINITY))
  /\ (SFeqb threshold INFINITY = true <-> threshold = INFINITY).
Proof.
  intros Hfa Hfb Ha Hb Hne Hss Hinf.
  rewrite (pdfdiff_joined d a b threshold dpi ids ids Hfa Hfb Ha Hb). cbv zeta.
  rewrite bool_decide_eq_true_2 by reflexivity.
  destruct ids as [|pageno ids]; [congruence|]. cbn [length Nat.ltb Nat.leb].
  destruct (compared d a b dpi (pageno :: ids)) as [r w']. cbn [fst snd] in *.
  subst r.
  assert (Hmin : py_min significances INFINITY = INFINITY).
  { destruct significances as [|s ss]; [reflexivity|].
    apply Forall_cons_1 in Hinf as [-> Hinf]. now apply min_from_same. }
  rewrite Hmin. split.
  - destruct threshold as [sz|[|]| |[|] m e]; reflexivity.
  - unfold SFeqb, INFINITY.
    destruct threshold as [sz|[|]| |[|] m e]; simpl; split; intros H;
      solve [discriminate H | reflexivity].
Qed.

Lemma min_from_nan (xs : list pyfloat) : min_from S754_nan xs = S754_nan.
Proof.
  induction xs as [|x xs IH]; [reflexivity|].
  cbn [min_from]. unfold SFltb. now rewrite SFcompare_nan_r.
Qed.

(** X14.  A NaN score on the first page decides the run: min() keeps it
    whatever the later pages score, "NaN <= threshold" is false, and
    pdfdiff returns True for every threshold. *)
Theorem pdfdiff_nan_first_page (d a b : string) (threshold : pyfloat) (dpi : Z)
    (ids : list string) (later : list pyfloat) :
  os_path_isfile a = true -> os_path_isfile b = true ->
  fst (rasterized_a d a dpi) = Return ids ->
  fst (rasterized_b d a b dpi) = Return ids ->
  fst (compared d a b dpi ids) = Return (S754_nan :: later) ->
  fst (pdfdiff d a b threshold dpi) = Return true.
Proof.
  intros Hfa Hfb Ha Hb Hss.
  rewrite (pdfdiff_joined d a b threshold dpi ids ids Hfa Hfb Ha Hb). cbv zeta.
  rewrite bool_decide_eq_true_2 by reflexivity.
  destruct ids as [|pageno ids]; [discriminate|]. cbn [length Nat.ltb Nat.leb].
  destruct (compared d a b dpi (pageno :: ids)) as [r w']. cbn [fst snd] in *.
  subst r. cbn [py_min]. now rewrite min_from_nan.
Qed.

(* The world in which the loop stops is the one the failing page's
   imgdiff leaves. *)
Lemma compare_pages_raise_world (p : string) (pre post : list string) (pageno : string)
    (acc ss : list pyfloat) (w : world) (e : exn) :
  fst (compare_pages p pre acc w) = Return ss ->
  fst (imgdiff (joinpath p ("a-" +:+ pageno +:+ ".png"))
               (joinpath p ("b-" +:+ pageno +:+ ".png"))
               (joinpath p ("diff-" +:+ pageno +:+ ".png"))
               (joinpath p ("log-" +:+ pageno +:+ ".txt"))
               (snd (compare_pages p pre acc w))) = Raise e ->
  snd (compare_pages p (pre ++ pageno :: post) acc w)
  = snd (imgdiff (joinpath p ("a-" +:+ pageno +:+ ".png"))
                 (joinpath p ("b-" +:+ pageno +:+ ".png"))
                 (joinpath p ("diff-" +:+ pageno +:+ ".png"))
                 (joinpath p ("log-" +:+ pageno +:+ ".txt"))
                 (snd (compare_pages p pre acc w))).
Proof.
  intros Hpre Hpage. rewrite compare_pages_app. unfold bind.
  destruct (compare_pages p pre acc w) as [[ss'|e'] w1]; [|discriminate].
  cbn [fst snd] in *. cbn [compare_pages]. unfold bind.
  destruct (imgdiff _ _ _ _ w1) as [[s|e''] w2]; [discriminate|]. reflexivity.
Qed.

(** X15.  Any exception of imgdiff on a page (a failed assertion, a
    crash status, a size mismatch, a log without its one label line, a
    token float() rejects) ends pdfdiff with that same exception and no
    verdict, the pages before it having been compared; the run stops
    there, the last thing done being that page's imgdiff, and no later
    page is compared. *)
Theorem pdfdiff_page_failure (d a b : string) (threshold : pyfloat) (dpi : Z)
    (pre post : list string) (pageno : string) (scores : list pyfloat) (e : exn) :
  os_path_isfile a = true -> os_path_isfile b = true ->
  fst (rasterized_a d a dpi) = Return (pre ++ pageno :: post) ->
  fst (rasterized_b d a b dpi) = Return (pre ++ pageno :: post) ->
  fst (compared d a b dpi pre) = Return scores ->
  let page_run :=
    imgdiff (joinpath d ("a-" +:+ pageno +:+ ".png"))
            (joinpath d ("b-" +:+ pageno +:+ ".png"))
            (joinpath d ("diff-" +:+ pageno +:+ ".png"))
            (joinpath d ("log-" +:+ pageno +:+ ".txt"))
            (snd (compared d a b dpi pre)) in
  fst page_run = Raise e ->
  pdfdiff d a b threshold dpi = (Raise e, trace (snd page_run))
  /\ exists k, k <= 1
       /\ snd (pdfdiff d a b threshold dpi)
          = pdftocairo_argv a d "a" dpi :: pdftocairo_argv b d "b" dpi
            :: List.map (page_argv d) pre ++ take k [page_argv d pageno].
Proof.
  intros Hfa Hfb Ha Hb Hpre page_run Hpage.
  assert (Hrun : pdfdiff d a b threshold dpi = (Raise e, trace (snd page_run))).
  { rewrite (pdfdiff_joined d a b threshold dpi _ _ Hfa Hfb Ha Hb). cbv zeta.
    rewrite bool_decide_eq_true_2 by reflexivity.
    replace (0 <? length (pre ++ pageno :: post))%nat with true.
    2:{ symmetry. apply Nat.ltb_lt. rewrite length_app. cbn. lia. }
    pose proof (compare_pages_raise d pre post pageno [] scores _ _ Hpre Hpage) as Hf.
    pose proof (compare_pages_raise_world d pre post pageno [] scores _ _ Hpre Hpage) as Hs.
    fold (compared d a b dpi (pre ++ pageno :: post)) in Hf, Hs.
    fold (compared d a b dpi pre) in Hs. fold page_run in Hs.
    destruct (compared d a b dpi (pre ++ pageno :: post)) as [r w'].
    cbn [fst snd] in *. now subst. }
  split; [exact Hrun|]. rewrite Hrun. cbn [snd]. subst page_run.
  destruct (compare_pages_commands d pre [] (snd (rasterized_b d a b dpi)))
    as (k & _ & Htrace & Hall).
  fold (compared d a b dpi pre) in Htrace, Hall.
  rewrite (Hall scores Hpre), firstn_all in Htrace.
  rewrite (rasterized_trace d a b dpi _ _ Ha Hb) in Htrace.
  destruct (imgdiff_commands
              (joinpath d ("a-" +:+ pageno +:+ ".png"))
              (joinpath d ("b-" +:+ pageno +:+ ".png"))
              (joinpath d ("diff-" +:+ pageno +:+ ".png"))
              (joinpath d ("log-" +:+ pageno +:+ ".txt"))
              (snd (compared d a b dpi pre))) as [[Hnone _] | Hone].
  - exists 0. split; [lia|]. rewrite Hnone, Htrace. cbn. now rewrite app_nil_r.
  - exists 1. split; [lia|]. rewrite Hone, Htrace. reflexivity.
Qed.

(** X16.  The stale-file guard at work: for a prefix without glob
    metacharacters, once pdftopng has returned a non-empty page list, a
    second pdftopng call with the same prefix on the directory as it is
    then raises the "destdir not clean" ValueError and runs nothing. *)
Theorem pdftopng_twice
    (sourcepath sourcepath' destdir basename : string) (dpi dpi' : Z)
    (w : world) (ids : list string) :
  has_magic basename = false ->
  fst (pdftopng sourcepath destdir basename dpi w) = Return ids ->
  ids <> [] ->
  let w' := snd (pdftopng sourcepath destdir basename dpi w) in
  pdftopng sourcepath' destdir basename dpi' w'
  = (Raise (ValueError ("destdir not clean: " +:+ repr_dir destdir)), w').
Proof.
  intros Hm Hr Hne. cbv zeta. revert Hr. rewrite (pdftopng_run sourcepath).
  destruct (negb (is_nil _)); [discriminate|]. cbv zeta.
  destruct (os_exec _ (files w)) as [[returncode out] fs].
  destruct (returncode =? 0)%Z; [|discriminate].
  cbn [fst snd]. intros [= <-].
  destruct (sorted (List.filter (fnmatch (basename +:+ "*" +:+ ".png"))
                      (elements (dom fs)))) as [|n names] eqn:E;
    [now cbn in Hne|].
  assert (Hn : In n (List.filter (fnmatch (basename +:+ "*" +:+ ".png"))
                       (elements (dom fs)))).
  { rewrite <- list_elem_of_In, <- (sorted_Permutation _), E. left. }
  apply List.filter_In in Hn as [Hin Hmatch].
  apply (fnmatch_prefix_png _ _ Hm) in Hmatch as [mid ->].
  rewrite pdftopng_run. cbn [files].
  assert (Hstale : List.filter (fnmatch (basename +:+ "*")) (elements (dom fs)) <> []).
  { apply filter_nonempty. exists (basename +:+ mid +:+ ".png").
    split; [exact Hin|]. rewrite fnmatch_prefix by assumption. apply startswith_app. }
  apply is_nil_false in Hstale. now rewrite Hstale.
Qed.

(** X9.  The page loop stops at the first page whose imgdiff raises.
    When the pages before it have been compared, with their scores
    returned, the loop over the whole list ends with that page's
    exception in the world that page's imgdiff left: the commands run
    are one comparison for each earlier page, in page order, then at
    most the comparison of the failing page, and none for a later page;
    the earlier pages gave one score each, added after those already
    collected. *)
Theorem compare_pages_stops (p : string) (pre post : list string) (pageno : string)
    (acc scores : list pyfloat) (w : world) (e : exn) :
  fst (compare_pages p pre acc w) = Return scores ->
  let w1 := snd (compare_pages p pre acc w) in
  let page_run :=
    imgdiff (joinpath p ("a-" +:+ pageno +:+ ".png"))
            (joinpath p ("b-" +:+ pageno +:+ ".png"))
            (joinpath p ("diff-" +:+ pageno +:+ ".png"))
            (joinpath p ("log-" +:+ pageno +:+ ".txt")) w1 in
  fst page_run = Raise e ->
  compare_pages p (pre ++ pageno :: post) acc w = (Raise e, snd page_run)
  /\ (exists new, scores = acc ++ new /\ length new = length pre)
  /\ trace w1 = trace w ++ List.map (page_argv p) pre
  /\ exists k, k <= 1
       /\ trace (snd page_run) = trace w1 ++ take k [page_argv p pageno].
Proof.
  intros Hpre w1 page_run Hpage.
  split; [|split; [|split]].
  - pose proof (compare_pages_raise p pre post pageno acc scores w e Hpre Hpage) as Hf.
    pose proof (compare_pages_raise_world p pre post pageno acc scores w e Hpre Hpage) as Hs.
    destruct (compare_pages p (pre ++ pageno :: post) acc w) as [r w'].
    cbn [fst snd] in *. subst r w'. reflexivity.
  - exact (compare_pages_scores p pre acc scores w Hpre).
  - destruct (compare_pages_commands p pre acc w) as (k & _ & Htrace & Hall).
    subst w1. now rewrite Htrace, (Hall scores Hpre), firstn_all.
  - subst page_run.
    destruct (imgdiff_commands
                (joinpath p ("a-" +:+ pageno +:+ ".png"))
                (joinpath p ("b-" +:+ pageno +:+ ".png"))
                (joinpath p ("diff-" +:+ pageno +:+ ".png"))
                (joinpath p ("log-" +:+ pageno +:+ ".txt")) w1) as [[Hnone _] | Hone].
    + exists 0. split; [lia|]. rewrite Hnone. cbn. now rewrite app_nil_r.
    + exists 1. split; [lia|]. exact Hone.
Qed.






End Diff.

(* --------------------------------------------------------------------- *)
(* The properties on concrete runs                                        *)
(* --------------------------------------------------------------------- *)

Lemma page_one_ready : imgdiff_ready Demo.pagea Demo.pageb Demo.pagediff Demo.pagelog Demo.page_one.
Proof. split; [|split; [|split]]; vm_compute; eauto. Qed.

(* Threshold 3, both pages at 3.2: the same. *)
Lemma pdfdiff_verdict_witness :
  let exec := Demo.exec "a-" ["1"; "2"] "b-" ["1"; "2"] 1 ["    all: 3.2"] in
  let three := Demo.float_of_int 3 in
  let scores := [Demo.three_point_two; Demo.three_point_two] in
  fst (compared exec Demo.float_of_str "/tmp/d" "A.pdf" "B.pdf" 150 ["1"; "2"]) = Return scores
  /\ fst (pdfdiff exec Demo.isfile Demo.float_of_str "/tmp/d" "A.pdf" "B.pdf" three 150)
     = Return true
  /\ SFltb three (py_min scores INFINITY) = true.
Proof.
  intros exec three scores.
  assert (Ha : fst (rasterized_a exec "/tmp/d" "A.pdf" 150) = Return ["1"; "2"])
    by (vm_compute; reflexivity).
  assert (Hb : fst (rasterized_b exec "/tmp/d" "A.pdf" "B.pdf" 150) = Return ["1"; "2"])
    by (vm_compute; reflexivity).
  assert (Hne : ["1"; "2"] <> @nil string) by discriminate.
  assert (Hss : fst (compared exec Demo.float_of_str "/tmp/d" "A.pdf" "B.pdf" 150 ["1"; "2"])
                = Return scores) by (vm_compute; reflexivity).
  destruct (pdfdiff_verdict exec Demo.isfile Demo.float_of_str
              "/tmp/d" "A.pdf" "B.pdf" three 150 ["1"; "2"] scores
              eq_refl eq_refl Ha Hb Hne Hss)
    as (Hrun & _ & _ & _ & Hord).
  split; [exact Hss|]. split.
  - rewrite Hrun. vm_compute. reflexivity.
  - vm_compute. reflexivity.
Defined.

(* A NaN threshold: the one page scores 5, the verdict is True, and 5 is
   not strictly greater than the threshold. *)
Lemma pdfdiff_nan_threshold :
  let exec := Demo.one_page 1 ["    all: 5"] in
  let run := pdfdiff exec Demo.isfile Demo.float_of_str "/tmp/d" "A.pdf" "B.pdf" S754_nan 150 in
  let scores := [Demo.float_of_int 5] in
  fst (rasterized_a exec "/tmp/d" "A.pdf" 150) = Return ["1"]
  /\ fst (rasterized_b exec "/tmp/d" "A.pdf" "B.pdf" 150) = Return ["1"]
  /\ fst (compared exec Demo.float_of_str "/tmp/d" "A.pdf" "B.pdf" 150 ["1"]) = Return scores
  /\ ~ (fst run = Return true <-> SFltb S754_nan (py_min scores INFINITY) = true).
Proof.
  intros exec run scores.
  split; [vm_compute; reflexivity|].
  split; [vm_compute; reflexivity|].
  split; [vm_compute; reflexivity|].
  intros [H _]. assert (E : fst run = Return true) by (vm_compute; reflexivity).
  apply H in E. vm_compute in E. discriminate.
Qed.

(* Document a has 2 pages and document b has 3. *)
Lemma pdfdiff_page_lists_differ_witness :
  let exec := Demo.exec "a-" ["1"; "2"] "b-" ["1"; "2"; "3"] 0 ["    all: 0"] in
  pdfdiff exec Demo.isfile Demo.float_of_str "/tmp/d" "A.pdf" "B.pdf" (Demo.float_of_int 3) 150
  = (Return false,
     [["pdftocairo"; "-png"; "-r"; "150"; "A.pdf"; "/tmp/d/a"];
      ["pdftocairo"; "-png"; "-r"; "150"; "B.pdf"; "/tmp/d/b"]]).
Proof.
  intros exec.
  assert (Ha : fst (rasterized_a exec "/tmp/d" "A.pdf" 150) = Return ["1"; "2"])
    by (vm_compute; reflexivity).
  assert (Hb : fst (rasterized_b exec "/tmp/d" "A.pdf" "B.pdf" 150) = Return ["1"; "2"; "3"])
    by (vm_compute; reflexivity).
  assert (Hne : ["1"; "2"] <> ["1"; "2"; "3"]) by discriminate.
  destruct (pdfdiff_page_lists_differ exec Demo.isfile Demo.float_of_str
              "/tmp/d" "A.pdf" "B.pdf" (Demo.float_of_int 3) 150 ["1"; "2"] ["1"; "2"; "3"]
              eq_refl eq_refl Ha Hb Hne)
    as (Htrace & _ & Hfalse).
  rewrite (surjective_pairing (pdfdiff _ _ _ _ _ _ _ _)), Htrace, Hfalse by discriminate.
  reflexivity.
Defined.

(* Page lists ['1'] and ['2']: unequal, and no verdict. *)
Lemma pdfdiff_unequal_lists_assert :
  let exec := Demo.exec "a-" ["1"] "b-" ["2"] 0 ["    all: 0"] in
  fst (rasterized_a exec "/tmp/d" "A.pdf" 150) = Return ["1"]
  /\ fst (rasterized_b exec "/tmp/d" "A.pdf" "B.pdf" 150) = Return ["2"]
  /\ ["1"] <> ["2"]
  /\ fst (pdfdiff exec Demo.isfile Demo.float_of_str "/tmp/d" "A.pdf" "B.pdf"
            (Demo.float_of_int 3) 150)
     = Raise (AssertionError "mishap with weird page numbers: ['1'] vs ['2']")
  /\ fst (pdfdiff exec Demo.isfile Demo.float_of_str "/tmp/d" "A.pdf" "B.pdf"
            (Demo.float_of_int 3) 150)
     <> Return false.
Proof.
  intros exec.
  split; [vm_compute; reflexivity|].
  split; [vm_compute; reflexivity|].
  split; [discriminate|].
  split; [vm_compute; reflexivity|].
  vm_compute. discriminate.
Qed.

(* What the comparison leaves behind on page 1: the log, still empty as
   far as the command is concerned. *)
Lemma one_page_exec (status : Z) (report : list string) :
  Demo.one_page status report
    (compare_argv Demo.pagea Demo.pageb Demo.pagediff)
    (<[name Demo.pagelog := []]> (files Demo.page_one))
  = (status, report, <[name Demo.pagelog := []]> (files Demo.page_one)).
Proof. reflexivity. Qed.

(* The tokens '0', '3.2' and '0.0': infinity, 3.2 and zero. *)
Lemma imgdiff_zero_token_witness :
  let imgdiff_page_one report :=
    fst (imgdiff (Demo.one_page 1 report) Demo.float_of_str
           Demo.pagea Demo.pageb Demo.pagediff Demo.pagelog Demo.page_one) in
  imgdiff_page_one ["compare output"; "    all: 0
"] = Return INFINITY
  /\ imgdiff_page_one ["compare output"; "    all: 3.2
"] = Return Demo.three_point_two
  /\ imgdiff_page_one ["    all:   0.0  "] = Return (S754_zero false).
Proof.
  intros imgdiff_page_one.
  assert (Hrc : (1 <= 1)%Z) by lia.
  assert (Hzero := fun report all_line =>
            imgdiff_zero_token (Demo.one_page 1 report) Demo.float_of_str
              Demo.pagea Demo.pageb Demo.pagediff Demo.pagelog Demo.page_one
              1 report _ all_line page_one_ready (one_page_exec 1 report) Hrc).
  split; [|split].
  - refine (proj1 (proj1 (Hzero ["compare output"; "    all: 0
"] "    all: 0
" eq_refl eq_refl) eq_refl)).
  - refine (proj1 (proj2 (Hzero ["compare output"; "    all: 3.2
"] "    all: 3.2
" eq_refl eq_refl)) _ _ eq_refl).
    discriminate.
  - refine (proj1 (proj2 (Hzero ["    all:   0.0  "] "    all:   0.0  "
                            eq_refl eq_refl)) _ _ eq_refl).
    discriminate.
Defined.

(* Status 2 is a crash; status 1 goes on to the log. *)
Lemma imgdiff_crash_status_witness :
  fst (imgdiff (Demo.one_page 2 ["    all: 5"]) Demo.float_of_str
         Demo.pagea Demo.pageb Demo.pagediff Demo.pagelog Demo.page_one)
  = Raise (ValueError "compare crashed, status=2")
  /\ fst (imgdiff (Demo.one_page 1 ["    all: 5"]) Demo.float_of_str
            Demo.pagea Demo.pageb Demo.pagediff Demo.pagelog Demo.page_one)
     = Return (Demo.float_of_int 5).
Proof.
  split.
  - destruct (imgdiff_crash_status (Demo.one_page 2 ["    all: 5"]) Demo.float_of_str
                _ _ _ _ _ _ _ _ page_one_ready (one_page_exec _ _)) as (_ & Hcrash & _).
    rewrite Hcrash by lia. reflexivity.
  - destruct (imgdiff_crash_status (Demo.one_page 1 ["    all: 5"]) Demo.float_of_str
                _ _ _ _ _ _ _ _ page_one_ready (one_page_exec _ _)) as (_ & _ & Hlog).
    rewrite Hlog by lia. reflexivity.
Defined.

(* Pages of different sizes reported with status 1: the run fails. *)
Lemma sizes_differ_aborts_witness :
  let exec := Demo.one_page 1 ["compare: image widths or heights differ `a-1.png'"] in
  fst (pdfdiff exec Demo.isfile Demo.float_of_str "/tmp/d" "A.pdf" "B.pdf"
         (Demo.float_of_int 3) 150)
  = Raise (ValueError "image widths or heights differ").
Proof.
  intros exec.
  assert (Ha : fst (rasterized_a exec "/tmp/d" "A.pdf" 150) = Return ([] ++ "1" :: []))
    by (vm_compute; reflexivity).
  assert (Hb : fst (rasterized_b exec "/tmp/d" "A.pdf" "B.pdf" 150) = Return ([] ++ "1" :: []))
    by (vm_compute; reflexivity).
  assert (Hready : imgdiff_ready Demo.pagea Demo.pageb Demo.pagediff Demo.pagelog
                     (snd (compared exec Demo.float_of_str "/tmp/d" "A.pdf" "B.pdf" 150 [])))
    by (split; [|split; [|split]]; vm_compute; eauto).
  refine (proj2 (sizes_differ_aborts exec Demo.isfile Demo.float_of_str
                   "/tmp/d" "A.pdf" "B.pdf" (Demo.float_of_int 3) 150 [] [] "1" []
                   1 _ _ eq_refl eq_refl Ha Hb eq_refl Hready eq_refl _ _)).
  - lia.
  - eexists. split; [now left | reflexivity].
Defined.

(* The same report with status 2: the crash error, not the size error. *)
Lemma imgdiff_crash_hides_sizes_differ :
  let report := ["compare: image widths or heights differ `a-1.png'"] in
  (exists l, In l report /\ contains "image widths or heights differ" l = true)
  /\ fst (imgdiff (Demo.one_page 2 report) Demo.float_of_str
            Demo.pagea Demo.pageb Demo.pagediff Demo.pagelog Demo.page_one)
     = Raise (ValueError "compare crashed, status=2")
  /\ fst (imgdiff (Demo.one_page 2 report) Demo.float_of_str
            Demo.pagea Demo.pageb Demo.pagediff Demo.pagelog Demo.page_one)
     <> Raise (ValueError "image widths or heights differ").
Proof.
  intros report. split; [|split].
  - eexists. split; [now left | reflexivity].
  - vm_compute. reflexivity.
  - vm_compute. discriminate.
Qed.

(* A stale a-1.png stops pdftopng; a clean directory does not. *)
Lemma pdftopng_dirty_destination_witness :
  pdftopng (Demo.one_page 0 []) "A.pdf" "/tmp/d" "a" 150 Demo.page_one
  = (Raise (ValueError "destdir not clean: PosixPath('/tmp/d')"), Demo.page_one)
  /\ trace (snd (pdftopng (Demo.one_page 0 []) "A.pdf" "/tmp/d" "a" 150 (mkWorld ∅ [])))
     = [["pdftocairo"; "-png"; "-r"; "150"; "A.pdf"; "/tmp/d/a"]].
Proof.
  split.
  - apply (pdftopng_dirty_destination (Demo.one_page 0 []) "A.pdf" "/tmp/d" "a" 150
             Demo.page_one eq_refl eq_refl).
    exists "a-1.png". split; [vm_compute; eauto | reflexivity].
  - apply (pdftopng_dirty_destination (Demo.one_page 0 []) "A.pdf" "/tmp/d" "a" 150
             (mkWorld ∅ []) eq_refl eq_refl).
    intros [n [[x Hx] _]]. cbn [files] in Hx. now rewrite lookup_empty in Hx.
Defined.

(* The prefix '[a]': an entry that starts with it goes unnoticed, and an
   entry that does not start with it is taken for stale. *)
Lemma pdftopng_magic_prefix :
  let exec := Demo.exec "[a]-" ["1"] "b-" [] 0 [] in
  let stale := mkWorld (<["[a]-1.png" := []]> ∅) [] in
  let other := mkWorld (<["a-1.png" := []]> ∅) [] in
  (exists n, is_Some (files stale !! n) /\ startswith "[a]" n = true)
  /\ fst (pdftopng exec "A.pdf" "/tmp/d" "[a]" 150 stale) = Return []
  /\ trace (snd (pdftopng exec "A.pdf" "/tmp/d" "[a]" 150 stale))
     = [["pdftocairo"; "-png"; "-r"; "150"; "A.pdf"; "/tmp/d/[a]"]]
  /\ (forall n, is_Some (files other !! n) -> startswith "[a]" n = false)
  /\ pdftopng exec "A.pdf" "/tmp/d" "[a]" 150 other
     = (Raise (ValueError "destdir not clean: PosixPath('/tmp/d')"), other).
Proof.
  intros exec stale other.
  split.
  { exists "[a]-1.png". split; [vm_compute; eauto | reflexivity]. }
  split; [vm_compute; reflexivity|].
  split; [vm_compute; reflexivity|].
  split.
  { intros n [x Hx]. unfold other in Hx. cbn [files] in Hx.
    apply lookup_insert_Some in Hx as [[<- _] | [_ Hx]]; [reflexivity|].
    now rewrite lookup_empty in Hx. }
  vm_compute. reflexivity.
Qed.

(* Pages 1, 2 and 10: '10' comes before '2'. *)
Lemma pdftopng_page_ids_witness :
  let exec := Demo.exec "a-" ["1"; "2"; "10"] "b-" [] 0 [] in
  let w' := snd (pdftopng exec "A.pdf" "/tmp/d" "a" 150 (mkWorld ∅ [])) in
  fst (pdftopng exec "A.pdf" "/tmp/d" "a" 150 (mkWorld ∅ [])) = Return ["1"; "10"; "2"]
  /\ generated "a" w' = ["a-1.png"; "a-10.png"; "a-2.png"]
  /\ exists names : list string,
       (forall n, In n names <->
          is_Some (files w' !! n) /\ exists mid, n = "a" +:+ mid +:+ ".png")
       /\ (forall n, In n names -> files (mkWorld ∅ []) !! n = None)
       /\ NoDup names
       /\ StronglySorted String.le names
       /\ (forall l, Permutation l names -> StronglySorted String.le l -> l = names)
       /\ Forall2 (fun n pageno =>
                     (exists sep, n = "a" +:+ String sep (pageno +:+ ".png"))
                     \/ (n = "a" +:+ ".png" /\ pageno = ""))
                  names ["1"; "10"; "2"].
Proof.
  intros exec w'.
  assert (H : fst (pdftopng exec "A.pdf" "/tmp/d" "a" 150 (mkWorld ∅ []))
              = Return ["1"; "10"; "2"]) by (vm_compute; reflexivity).
  split; [exact H|]. split; [vm_compute; reflexivity|].
  exact (pdftopng_page_ids exec "A.pdf" "/tmp/d" "a" 150 (mkWorld ∅ []) _
           eq_refl eq_refl H).
Defined.

(* The prefix '[a]' in an empty directory: the rasteriser writes
   '[a]-1.png', which is the prefix, '-', the id '1' and '.png', and
   pdftopng returns no id at all. *)
Lemma pdftopng_magic_prefix_ids :
  let exec := Demo.exec "[a]-" ["1"] "b-" [] 0 [] in
  let r := pdftopng exec "A.pdf" "/tmp/d" "[a]" 150 (mkWorld ∅ []) in
  files (snd r) = <["[a]-1.png" := []]> ∅
  /\ "[a]-1.png" = "[a]" +:+ "-" +:+ "1" +:+ ".png"
  /\ fst r = Return []
  /\ fst r <> Return ["1"].
Proof.
  intros exec r.
  split; [vm_compute; reflexivity|].
  split; [reflexivity|].
  split; [vm_compute; reflexivity|].
  vm_compute. discriminate.
Qed.

(* Page lists ['1'] and ['2'] at the level of pdfdiff. *)
Lemma pdfdiff_weird_page_numbers_witness :
  pdfdiff (Demo.exec "a-" ["1"] "b-" ["2"] 0 ["    all: 0"])
    Demo.isfile Demo.float_of_str "/tmp/d" "A.pdf" "B.pdf" (Demo.float_of_int 3) 150
  = (Raise (AssertionError "mishap with weird page numbers: ['1'] vs ['2']"),
     [["pdftocairo"; "-png"; "-r"; "150"; "A.pdf"; "/tmp/d/a"];
      ["pdftocairo"; "-png"; "-r"; "150"; "B.pdf"; "/tmp/d/b"]]).
Proof.
  assert (Ha : fst (rasterized_a (Demo.exec "a-" ["1"] "b-" ["2"] 0 ["    all: 0"])
                      "/tmp/d" "A.pdf" 150) = Return ["1"])
    by (vm_compute; reflexivity).
  assert (Hb : fst (rasterized_b (Demo.exec "a-" ["1"] "b-" ["2"] 0 ["    all: 0"])
                      "/tmp/d" "A.pdf" "B.pdf" 150) = Return ["2"])
    by (vm_compute; reflexivity).
  assert (Hne : ["1"] <> ["2"]) by discriminate.
  exact (pdfdiff_weird_page_numbers _ Demo.isfile Demo.float_of_str
           "/tmp/d" "A.pdf" "B.pdf" (Demo.float_of_int 3) 150 ["1"] ["2"]
           eq_refl eq_refl Ha Hb Hne eq_refl).
Defined.

(* Two documents without pages stop on the assertion; one page each
   gives a verdict from one score. *)
Lemma pdfdiff_no_pages_witness :
  pdfdiff (Demo.exec "a-" [] "b-" [] 0 [])
    Demo.isfile Demo.float_of_str "/tmp/d" "A.pdf" "B.pdf" (Demo.float_of_int 3) 150
  = (Raise (AssertionError ""),
     [["pdftocairo"; "-png"; "-r"; "150"; "A.pdf"; "/tmp/d/a"];
      ["pdftocairo"; "-png"; "-r"; "150"; "B.pdf"; "/tmp/d/b"]])
  /\ exists significances,
       fst (compared (Demo.one_page 0 ["    all: 0"]) Demo.float_of_str
              "/tmp/d" "A.pdf" "B.pdf" 150 ["1"]) = Return significances
       /\ length significances = 1.
Proof.
  split.
  - refine (proj1 (proj2 (pdfdiff_no_pages (Demo.exec "a-" [] "b-" [] 0 [])
              Demo.isfile Demo.float_of_str "/tmp/d" "A.pdf" "B.pdf"
              (Demo.float_of_int 3) 150 eq_refl eq_refl)) _ _);
      vm_compute; reflexivity.
  - destruct (proj2 (proj2 (pdfdiff_no_pages (Demo.one_page 0 ["    all: 0"])
              Demo.isfile Demo.float_of_str "/tmp/d" "A.pdf" "B.pdf"
              (Demo.float_of_int 3) 150 eq_refl eq_refl)) ["1"] true)
      as (ss & Hss & Hlen & _); [vm_compute; reflexivity ..|].
    exists ss. split; [exact Hss | exact Hlen].
Defined.


(* --------------------------------------------------------------------- *)
(* The library functions of the model on small inputs                     *)
(* --------------------------------------------------------------------- *)

Example fnmatch_examples :
  fnmatch "a*" "a-1.png" = true /\ fnmatch "a*" "b-1.png" = false
  /\ fnmatch "a*.png" "a.png" = true /\ fnmatch "a*.png" "a-1.png.txt" = false
  /\ fnmatch "?-1" "a-1" = true /\ fnmatch "[!a-c]x" "bx" = false
  /\ fnmatch "[a]*" "a-1.png" = true /\ fnmatch "[a]*" "[a]-1.png" = false
  /\ fnmatch "[" "[" = true.
Proof. repeat split. Qed.

Example slice_examples :
  slice 2 4 "a-10.png" = "10" /\ slice 2 4 "a.png" = "" /\ slice 2 4 "png" = "".
Proof. repeat split. Qed.

Example strip_examples :
  strip "  3.2
" = "3.2" /\ strip "0" = "0" /\ strip "   " = "" /\ strip " a b " = "a b".
Proof. repeat split. Qed.

Example str_of_Z_examples :
  str_of_Z 150 = "150" /\ str_of_Z 0 = "0" /\ str_of_Z (-9) = "-9".
Proof. repeat split. Qed.

Example sorted_example :
  sorted ["a-2.png"; "a-10.png"; "a-1.png"] = ["a-1.png"; "a-10.png"; "a-2.png"].
Proof. vm_compute. reflexivity. Qed.

(* min() keeps a NaN that comes first and skips one that comes later. *)
Example py_min_nan_examples :
  py_min [S754_nan; Demo.float_of_int 5] INFINITY = S754_nan
  /\ py_min [Demo.float_of_int 5; S754_nan] INFINITY = Demo.float_of_int 5
  /\ py_min [Demo.float_of_int 5; Demo.three_point_two; INFINITY] INFINITY
     = Demo.three_point_two.
Proof. repeat split. Qed.

(* --------------------------------------------------------------------- *)
(* The further properties on concrete runs                                *)
(* --------------------------------------------------------------------- *)

(* A rasteriser that ends with status 1 in an empty directory. *)
Lemma pdftopng_rasterizer_failure_witness :
  pdftopng (Demo.broken 1) "A.pdf" "/tmp/d" "a" 150 (mkWorld ∅ [])
  = (Raise (CalledProcessError 1 ["pdftocairo"; "-png"; "-r"; "150"; "A.pdf"; "/tmp/d/a"]),
     mkWorld ∅ [["pdftocairo"; "-png"; "-r"; "150"; "A.pdf"; "/tmp/d/a"]]).
Proof.
  apply (pdftopng_rasterizer_failure (Demo.broken 1) "A.pdf" "/tmp/d" "a" 150
           (mkWorld ∅ []) 1 ["command failed"] ∅ eq_refl eq_refl).
  - discriminate.
  - discriminate.
  - intros n [x Hx]. cbn [files] in Hx. now rewrite lookup_empty in Hx.
  - reflexivity.
  - lia.
Defined.

(* Both rasterisations fail: a's exception; only b's fails: b's. *)
Lemma pdfdiff_rasterization_failure_witness :
  fst (pdfdiff (Demo.broken 1) Demo.isfile Demo.float_of_str
         "/tmp/d" "A.pdf" "B.pdf" (Demo.float_of_int 3) 150)
  = Raise (CalledProcessError 1 ["pdftocairo"; "-png"; "-r"; "150"; "A.pdf"; "/tmp/d/a"])
  /\ pdfdiff (Demo.only_a ["1"] 1) Demo.isfile Demo.float_of_str
       "/tmp/d" "A.pdf" "B.pdf" (Demo.float_of_int 3) 150
     = (Raise (CalledProcessError 1 ["pdftocairo"; "-png"; "-r"; "150"; "B.pdf"; "/tmp/d/b"]),
        [["pdftocairo"; "-png"; "-r"; "150"; "A.pdf"; "/tmp/d/a"];
         ["pdftocairo"; "-png"; "-r"; "150"; "B.pdf"; "/tmp/d/b"]]).
Proof.
  split.
  - assert (Ha : fst (rasterized_a (Demo.broken 1) "/tmp/d" "A.pdf" 150)
                 = Raise (CalledProcessError 1
                            ["pdftocairo"; "-png"; "-r"; "150"; "A.pdf"; "/tmp/d/a"]))
      by (vm_compute; reflexivity).
    rewrite (proj1 (pdfdiff_rasterization_failure (Demo.broken 1) Demo.isfile
                      Demo.float_of_str "/tmp/d" "A.pdf" "B.pdf" (Demo.float_of_int 3) 150
                      eq_refl eq_refl) _ Ha).
    reflexivity.
  - assert (Ha : fst (rasterized_a (Demo.only_a ["1"] 1) "/tmp/d" "A.pdf" 150)
                 = Return ["1"]) by (vm_compute; reflexivity).
    assert (Hb : fst (rasterized_b (Demo.only_a ["1"] 1) "/tmp/d" "A.pdf" "B.pdf" 150)
                 = Raise (CalledProcessError 1
                            ["pdftocairo"; "-png"; "-r"; "150"; "B.pdf"; "/tmp/d/b"]))
      by (vm_compute; reflexivity).
    rewrite (proj1 (proj2 (pdfdiff_rasterization_failure (Demo.only_a ["1"] 1) Demo.isfile
                      Demo.float_of_str "/tmp/d" "A.pdf" "B.pdf" (Demo.float_of_int 3) 150
                      eq_refl eq_refl)) _ _ Ha Hb).
    vm_compute. reflexivity.
Defined.

(* No images in the directory: the assertion, and nothing run. *)
Lemma imgdiff_assertions_witness :
  imgdiff (Demo.one_page 0 ["    all: 0"]) Demo.float_of_str
    Demo.pagea Demo.pageb Demo.pagediff Demo.pagelog (mkWorld ∅ [])
  = (Raise (AssertionError ""), mkWorld ∅ []).
Proof.
  apply (imgdiff_assertions (Demo.one_page 0 ["    all: 0"]) Demo.float_of_str).
  intros [[x Hx] _]. cbn [files] in Hx. now rewrite lookup_empty in Hx.
Defined.

(* A comparison that crashes still leaves its report in the log. *)
Lemma imgdiff_leaves_log_witness :
  files (snd (imgdiff (Demo.one_page 2 ["compare: crash report"]) Demo.float_of_str
                Demo.pagea Demo.pageb Demo.pagediff Demo.pagelog Demo.page_one))
    !! "log-1.txt"
  = Some ["compare: crash report"].
Proof.
  exact (proj1 (imgdiff_leaves_log (Demo.one_page 2 ["compare: crash report"])
                  Demo.float_of_str _ _ _ _ _ _ _ _
                  page_one_ready (one_page_exec 2 ["compare: crash report"]))).
Defined.

(* A log without a label line, and a log with two. *)
Lemma imgdiff_label_count_witness :
  fst (imgdiff (Demo.one_page 0 ["compare output"]) Demo.float_of_str
         Demo.pagea Demo.pageb Demo.pagediff Demo.pagelog Demo.page_one)
  = Raise (AssertionError "")
  /\ fst (imgdiff (Demo.one_page 0 ["    all: 5"; "    all: 5"]) Demo.float_of_str
            Demo.pagea Demo.pageb Demo.pagediff Demo.pagelog Demo.page_one)
     = Raise (AssertionError "").
Proof.
  assert (Hrc : (0 <= 1)%Z) by lia.
  split.
  - refine (imgdiff_label_count (Demo.one_page 0 _) Demo.float_of_str _ _ _ _ _ _ _ _
              page_one_ready (one_page_exec 0 ["compare output"]) Hrc eq_refl _).
    discriminate.
  - refine (imgdiff_label_count (Demo.one_page 0 _) Demo.float_of_str _ _ _ _ _ _ _ _
              page_one_ready (one_page_exec 0 ["    all: 5"; "    all: 5"]) Hrc eq_refl _).
    discriminate.
Defined.

(* Blanks and a tab before the token, blanks and the end of line after. *)
Lemma imgdiff_padded_token_witness :
  fst (imgdiff (Demo.one_page 0 ["    all:   	0  
"]) Demo.float_of_str
         Demo.pagea Demo.pageb Demo.pagediff Demo.pagelog Demo.page_one)
  = Return INFINITY.
Proof.
  assert (Hrc : (0 <= 1)%Z) by lia.
  exact (imgdiff_padded_token (Demo.one_page 0 _) Demo.float_of_str _ _ _ _ _ _ _ _
           "  	" "0" "  
" page_one_ready (one_page_exec 0 ["    all:   	0  
"]) Hrc eq_refl eq_refl eq_refl eq_refl eq_refl eq_refl).
Defined.

(* Comparing page 1 a second time stops on the assertion. *)
Lemma imgdiff_log_not_reused_witness :
  let w' := snd (imgdiff (Demo.one_page 0 ["    all: 0"]) Demo.float_of_str
                   Demo.pagea Demo.pageb Demo.pagediff Demo.pagelog Demo.page_one) in
  imgdiff (Demo.one_page 0 ["    all: 0"]) Demo.float_of_str
    Demo.pagea Demo.pageb Demo.pagediff Demo.pagelog w'
  = (Raise (AssertionError ""), w').
Proof.
  exact (imgdiff_log_not_reused (Demo.one_page 0 ["    all: 0"]) Demo.float_of_str
           Demo.pagea Demo.pageb Demo.pagediff Demo.pagelog
           Demo.pagea Demo.pageb Demo.pagediff Demo.page_one page_one_ready).
Defined.

(* Pages 1 and 2 of both documents in the directory, and a report
   without label line: page 1 fails its assertion after its comparison
   has run, and page 2 is never compared. *)
Lemma compare_pages_stops_witness :
  let exec := Demo.one_page 0 ["compare output"] in
  let w := mkWorld (Demo.write_pages "a-" ["1"; "2"]
                      (Demo.write_pages "b-" ["1"; "2"] ∅)) [] in
  fst (compare_pages exec Demo.float_of_str "/tmp/d" ["1"; "2"] [] w)
  = Raise (AssertionError "")
  /\ trace (snd (compare_pages exec Demo.float_of_str "/tmp/d" ["1"; "2"] [] w))
     = [["compare"; "-verbose"; "-metric"; "PSNR";
         "/tmp/d/a-1.png"; "/tmp/d/b-1.png"; "/tmp/d/diff-1.png"]].
Proof.
  intros exec w.
  assert (Hpage : fst (imgdiff exec Demo.float_of_str
                         (joinpath "/tmp/d" ("a-" +:+ "1" +:+ ".png"))
                         (joinpath "/tmp/d" ("b-" +:+ "1" +:+ ".png"))
                         (joinpath "/tmp/d" ("diff-" +:+ "1" +:+ ".png"))
                         (joinpath "/tmp/d" ("log-" +:+ "1" +:+ ".txt"))
                         (snd (compare_pages exec Demo.float_of_str "/tmp/d" [] [] w)))
                  = Raise (AssertionError "")) by (vm_compute; reflexivity).
  destruct (compare_pages_stops exec Demo.float_of_str "/tmp/d" [] ["2"] "1" [] [] w
              (AssertionError "") eq_refl Hpage) as (Hrun & _).
  change ([] ++ "1" :: ["2"]) with ["1"; "2"] in Hrun.
  rewrite Hrun. split; [reflexivity|]. vm_compute. reflexivity.
Defined.

(* Two pages each: two rasterisations, then page 1, then page 2. *)
Lemma pdfdiff_commands_witness :
  let exec := Demo.exec "a-" ["1"; "2"] "b-" ["1"; "2"] 1 ["    all: 3.2"] in
  exists rasterizations,
    Permutation rasterizations
      [pdftocairo_argv "A.pdf" "/tmp/d" "a" 150; pdftocairo_argv "B.pdf" "/tmp/d" "b" 150]
    /\ snd (pdfdiff exec Demo.isfile Demo.float_of_str "/tmp/d" "A.pdf" "B.pdf"
              (Demo.float_of_int 3) 150)
       = rasterizations
         ++ [["compare"; "-verbose"; "-metric"; "PSNR";
              "/tmp/d/a-1.png"; "/tmp/d/b-1.png"; "/tmp/d/diff-1.png"];
             ["compare"; "-verbose"; "-metric"; "PSNR";
              "/tmp/d/a-2.png"; "/tmp/d/b-2.png"; "/tmp/d/diff-2.png"]].
Proof.
  intros exec.
  assert (Ha : fst (rasterized_a exec "/tmp/d" "A.pdf" 150) = Return ["1"; "2"])
    by (vm_compute; reflexivity).
  assert (Hb : fst (rasterized_b exec "/tmp/d" "A.pdf" "B.pdf" 150) = Return ["1"; "2"])
    by (vm_compute; reflexivity).
  assert (Hv : fst (pdfdiff exec Demo.isfile Demo.float_of_str "/tmp/d" "A.pdf" "B.pdf"
                      (Demo.float_of_int 3) 150) = Return true)
    by (vm_compute; reflexivity).
  exact (pdfdiff_commands exec Demo.isfile Demo.float_of_str "/tmp/d" "A.pdf" "B.pdf"
           (Demo.float_of_int 3) 150 ["1"; "2"] true eq_refl eq_refl Ha Hb Hv).
Defined.

(* One page scoring 5: True at threshold 3.2, so True at threshold 3. *)
Lemma pdfdiff_threshold_monotone_witness :
  fst (pdfdiff (Demo.one_page 1 ["    all: 5"]) Demo.isfile Demo.float_of_str
         "/tmp/d" "A.pdf" "B.pdf" (Demo.float_of_int 3) 150)
  = Return true.
Proof.
  assert (Hle : SFleb (Demo.float_of_int 3) Demo.three_point_two = true)
    by (vm_compute; reflexivity).
  assert (Hv : fst (pdfdiff (Demo.one_page 1 ["    all: 5"]) Demo.isfile Demo.float_of_str
                      "/tmp/d" "A.pdf" "B.pdf" Demo.three_point_two 150) = Return true)
    by (vm_compute; reflexivity).
  exact (proj1 (proj2 (proj2 (pdfdiff_threshold_monotone (Demo.one_page 1 ["    all: 5"])
                  Demo.isfile Demo.float_of_str "/tmp/d" "A.pdf" "B.pdf"
                  Demo.three_point_two (Demo.float_of_int 3) 150)) Hle) Hv).
Defined.

(* Two identical pages: the same at threshold 3, different at infinity. *)
Lemma pdfdiff_all_infinite_witness :
  let exec := Demo.exec "a-" ["1"; "2"] "b-" ["1"; "2"] 0 ["    all: 0"] in
  fst (pdfdiff exec Demo.isfile Demo.float_of_str "/tmp/d" "A.pdf" "B.pdf"
         (Demo.float_of_int 3) 150) = Return true
  /\ fst (pdfdiff exec Demo.isfile Demo.float_of_str "/tmp/d" "A.pdf" "B.pdf"
            INFINITY 150) = Return false.
Proof.
  intros exec.
  assert (Ha : fst (rasterized_a exec "/tmp/d" "A.pdf" 150) = Return ["1"; "2"])
    by (vm_compute; reflexivity).
  assert (Hb : fst (rasterized_b exec "/tmp/d" "A.pdf" "B.pdf" 150) = Return ["1"; "2"])
    by (vm_compute; reflexivity).
  assert (Hne : ["1"; "2"] <> @nil string) by discriminate.
  assert (Hss : fst (compared exec Demo.float_of_str "/tmp/d" "A.pdf" "B.pdf" 150 ["1"; "2"])
                = Return [INFINITY; INFINITY]) by (vm_compute; reflexivity).
  assert (Hinf : Forall (fun s => s = INFINITY) [INFINITY; INFINITY])
    by (repeat constructor).
  split.
  - exact (proj1 (pdfdiff_all_infinite exec Demo.isfile Demo.float_of_str
                    "/tmp/d" "A.pdf" "B.pdf" (Demo.float_of_int 3) 150 _ _
                    eq_refl eq_refl Ha Hb Hne Hss Hinf)).
  - exact (proj1 (pdfdiff_all_infinite exec Demo.isfile Demo.float_of_str
                    "/tmp/d" "A.pdf" "B.pdf" INFINITY 150 _ _
                    eq_refl eq_refl Ha Hb Hne Hss Hinf)).
Defined.

(* A report of 'nan' on the only page: True. *)
Lemma pdfdiff_nan_first_page_witness :
  fst (pdfdiff (Demo.one_page 0 ["    all: nan"]) Demo.isfile Demo.float_of_str
         "/tmp/d" "A.pdf" "B.pdf" (Demo.float_of_int 3) 150)
  = Return true.
Proof.
  assert (Ha : fst (rasterized_a (Demo.one_page 0 ["    all: nan"]) "/tmp/d" "A.pdf" 150)
               = Return ["1"]) by (vm_compute; reflexivity).
  assert (Hb : fst (rasterized_b (Demo.one_page 0 ["    all: nan"])
                      "/tmp/d" "A.pdf" "B.pdf" 150) = Return ["1"])
    by (vm_compute; reflexivity).
  assert (Hss : fst (compared (Demo.one_page 0 ["    all: nan"]) Demo.float_of_str
                       "/tmp/d" "A.pdf" "B.pdf" 150 ["1"]) = Return [S754_nan])
    by (vm_compute; reflexivity).
  exact (pdfdiff_nan_first_page _ Demo.isfile Demo.float_of_str "/tmp/d" "A.pdf" "B.pdf"
           (Demo.float_of_int 3) 150 ["1"] [] eq_refl eq_refl Ha Hb Hss).
Defined.

(* Pages 1 and 2, every page named with '-'. *)
Lemma pdftopng_dash_names_witness :
  let exec := Demo.exec "a-" ["1"; "2"] "b-" [] 0 [] in
  List.map (fun pageno => "a" +:+ "-" +:+ pageno +:+ ".png") ["1"; "2"]
  = sorted (List.filter (fnmatch "a*.png")
              (elements (dom (files (snd (pdftopng exec "A.pdf" "/tmp/d" "a" 150
                                            (mkWorld ∅ []))))))).
Proof.
  intros exec.
  assert (Hr : fst (pdftopng exec "A.pdf" "/tmp/d" "a" 150 (mkWorld ∅ []))
               = Return ["1"; "2"]) by (vm_compute; reflexivity).
  refine (proj2 (pdftopng_dash_names exec "A.pdf" "/tmp/d" "a" 150 (mkWorld ∅ [])
                   ["1"; "2"] eq_refl eq_refl Hr _)).
  intros n [x Hx] _.
  assert (Hfs : files (snd (pdftopng exec "A.pdf" "/tmp/d" "a" 150 (mkWorld ∅ [])))
                = <["a-1.png" := []]> (<["a-2.png" := []]> ∅))
    by (vm_compute; reflexivity).
  rewrite Hfs in Hx.
  apply lookup_insert_Some in Hx as [[<- _] | [_ Hx]]; [reflexivity|].
  apply lookup_insert_Some in Hx as [[<- _] | [_ Hx]]; [reflexivity|].
  now rewrite lookup_empty in Hx.
Defined.

(* The comparison crashes on the only page: that error, and the run
   ends with that comparison. *)
Lemma pdfdiff_page_failure_witness :
  pdfdiff (Demo.one_page 2 ["compare: crash report"]) Demo.isfile Demo.float_of_str
    "/tmp/d" "A.pdf" "B.pdf" (Demo.float_of_int 3) 150
  = (Raise (ValueError "compare crashed, status=2"),
     [["pdftocairo"; "-png"; "-r"; "150"; "A.pdf"; "/tmp/d/a"];
      ["pdftocairo"; "-png"; "-r"; "150"; "B.pdf"; "/tmp/d/b"];
      ["compare"; "-verbose"; "-metric"; "PSNR";
       "/tmp/d/a-1.png"; "/tmp/d/b-1.png"; "/tmp/d/diff-1.png"]]).
Proof.
  assert (Ha : fst (rasterized_a (Demo.one_page 2 ["compare: crash report"])
                      "/tmp/d" "A.pdf" 150) = Return ([] ++ "1" :: []))
    by (vm_compute; reflexivity).
  assert (Hb : fst (rasterized_b (Demo.one_page 2 ["compare: crash report"])
                      "/tmp/d" "A.pdf" "B.pdf" 150) = Return ([] ++ "1" :: []))
    by (vm_compute; reflexivity).
  assert (Hpage : fst (imgdiff (Demo.one_page 2 ["compare: crash report"]) Demo.float_of_str
                         (joinpath "/tmp/d" ("a-" +:+ "1" +:+ ".png"))
                         (joinpath "/tmp/d" ("b-" +:+ "1" +:+ ".png"))
                         (joinpath "/tmp/d" ("diff-" +:+ "1" +:+ ".png"))
                         (joinpath "/tmp/d" ("log-" +:+ "1" +:+ ".txt"))
                         (snd (compared (Demo.one_page 2 ["compare: crash report"])
                                 Demo.float_of_str "/tmp/d" "A.pdf" "B.pdf" 150 [])))
                  = Raise (ValueError "compare crashed, status=2"))
    by (vm_compute; reflexivity).
  rewrite (proj1 (pdfdiff_page_failure (Demo.one_page 2 ["compare: crash report"])
                    Demo.isfile Demo.float_of_str "/tmp/d" "A.pdf" "B.pdf"
                    (Demo.float_of_int 3) 150 [] [] "1" [] _
                    eq_refl eq_refl Ha Hb eq_refl Hpage)).
  vm_compute. reflexivity.
Defined.

(* Rasterising document A a second time into the same directory. *)
Lemma pdftopng_twice_witness :
  let w' := snd (pdftopng (Demo.one_page 0 []) "A.pdf" "/tmp/d" "a" 150 (mkWorld ∅ [])) in
  pdftopng (Demo.one_page 0 []) "A.pdf" "/tmp/d" "a" 150 w'
  = (Raise (ValueError "destdir not clean: PosixPath('/tmp/d')"), w').
Proof.
  assert (Hr : fst (pdftopng (Demo.one_page 0 []) "A.pdf" "/tmp/d" "a" 150 (mkWorld ∅ []))
               = Return ["1"]) by (vm_compute; reflexivity).
  assert (Hne : ["1"] <> @nil string) by discriminate.
  exact (pdftopng_twice (Demo.one_page 0 []) "A.pdf" "A.pdf" "/tmp/d" "a" 150 150
           (mkWorld ∅ []) ["1"] eq_refl Hr Hne).
Defined.
